(** * FileManager (src/agent_core/env_components/file_manager.py)

    A shallow embedding of [FileManager]: every method turns a file
    operation into shell commands sent to a [CommandExecutor] and classifies
    the (output, exit code) it gets back.

    Modelling conventions.
    - Python text is represented by a Rocq [string] holding its UTF-8 bytes;
      [content.encode('utf-8')] is the identity on this representation.
    - The executor is a parameter [exec : string -> FS -> (string * Z) * FS]:
      it receives the command text and the remote file system and returns
      the command's output, its exit code and the new file system.  The
      [timeout] argument (always the default 30) plays no role and is left
      out.
    - The monad [M] threads the remote file system together with the trace
      of the commands issued so far, in the order they were issued. *)

From Stdlib Require Import String Ascii ZArith List Bool Lia.
Import ListNotations.
Open Scope string_scope.

(* ------------------------------------------------------------------ *)
(** ** Python string helpers *)

Definition LF : ascii := Ascii.ascii_of_nat 10.
Definition TAB : ascii := Ascii.ascii_of_nat 9.
Definition nl : string := String LF EmptyString.

Definition ascii_eqb (a b : ascii) : bool :=
  if ascii_dec a b then true else false.

(** [starts_with p s]: [s.startswith(p)]. *)
Fixpoint starts_with (p s : string) : bool :=
  match p, s with
  | EmptyString, _ => true
  | String a p', String b s' => ascii_eqb a b && starts_with p' s'
  | String _ _, EmptyString => false
  end.

(** [contains sub s]: Python's [sub in s]. *)
Fixpoint contains (sub s : string) : bool :=
  starts_with sub s ||
  match s with
  | EmptyString => false
  | String _ s' => contains sub s'
  end.

(** [sep.join(xs)]. *)
Fixpoint join (sep : string) (xs : list string) : string :=
  match xs with
  | [] => EmptyString
  | [x] => x
  | x :: xs' => x ++ sep ++ join sep xs'
  end.

(** [s.replace(c, r)] for a one-character [c]. *)
Fixpoint replace_char (c : ascii) (r : string) (s : string) : string :=
  match s with
  | EmptyString => EmptyString
  | String x s' =>
      (if ascii_eqb x c then r else String x EmptyString) ++ replace_char c r s'
  end.

(** [str.isspace] on the character that starts [s] (a str is held as its
    UTF-8 bytes): the number of bytes of that character when it is
    whitespace, 0 otherwise.  Python's whitespace characters are
    \t \n \v \f \r, the separators \x1c-\x1f and the space (one byte
    each), U+0085 and U+00A0 (C2 85, C2 A0), and U+1680 (E1 9A 80),
    U+2000-U+200A (E2 80 80-8A), U+2028, U+2029, U+202F (E2 80 A8, A9,
    AF), U+205F (E2 81 9F) and U+3000 (E3 80 80).  None of these byte
    sequences starts with a continuation byte, so a byte-wise scan only
    finds them at character boundaries. *)
Definition py_space_len (s : string) : nat :=
  match s with
  | EmptyString => 0
  | String c1 r1 =>
      let n1 := nat_of_ascii c1 in
      if ((9 <=? n1) && (n1 <=? 13)) || ((28 <=? n1) && (n1 <=? 32)) then 1
      else match r1 with
        | EmptyString => 0
        | String c2 r2 =>
            let n2 := nat_of_ascii c2 in
            if (n1 =? 194) && ((n2 =? 133) || (n2 =? 160)) then 2
            else match r2 with
              | EmptyString => 0
              | String c3 _ =>
                  let n3 := nat_of_ascii c3 in
                  if ((n1 =? 225) && (n2 =? 154) && (n3 =? 128))
                     || ((n1 =? 226) && (n2 =? 128)
                         && (((128 <=? n3) && (n3 <=? 138))
                             || (n3 =? 168) || (n3 =? 169) || (n3 =? 175)))
                     || ((n1 =? 226) && (n2 =? 129) && (n3 =? 159))
                     || ((n1 =? 227) && (n2 =? 128) && (n3 =? 128))
                  then 3 else 0
              end
        end
  end%nat.

(** [s.lstrip()]: drop whitespace characters from the front. *)
Fixpoint py_lstrip (s : string) : string :=
  match s with
  | EmptyString => EmptyString
  | String _ r1 =>
      match py_space_len s with
      | S O => py_lstrip r1
      | S (S O) =>
          match r1 with
          | String _ r2 => py_lstrip r2
          | EmptyString => s
          end
      | S (S (S O)) =>
          match r1 with
          | String _ (String _ r3) => py_lstrip r3
          | _ => s
          end
      | _ => s
      end
  end.

(** [s.rstrip()]: cut [s] at the first position from which only
    whitespace characters follow. *)
Fixpoint py_rstrip (s : string) : string :=
  match s with
  | EmptyString => EmptyString
  | String c s' =>
      if String.eqb (py_lstrip s) EmptyString then EmptyString
      else String c (py_rstrip s')
  end.

(** [s.strip()]. *)
Definition py_strip (s : string) : string := py_rstrip (py_lstrip s).

(** The next whitespace-free word of [s] and what follows it. *)
Fixpoint take_word (s : string) : string * string :=
  match s with
  | EmptyString => (EmptyString, EmptyString)
  | String c s' =>
      if Nat.eqb (py_space_len s) 0 then let (w, r) := take_word s' in (String c w, r)
      else (EmptyString, s)
  end.

(** [s.split(maxsplit=k)] (CPython's [split_whitespace]): at most [k]
    splits; the remainder, if any, is kept whole after skipping the
    whitespace in front of it. *)
Fixpoint py_split_max (k : nat) (s : string) : list string :=
  let s1 := py_lstrip s in
  match s1 with
  | EmptyString => []
  | String _ _ =>
      match k with
      | O => [s1]
      | S k' => let (w, r) := take_word s1 in w :: py_split_max k' r
      end
  end.

(** Decimal rendering of an int, as [f"{n}"]. *)
Fixpoint show_nat_fuel (fuel n : nat) (acc : string) : string :=
  match fuel with
  | O => acc
  | S f =>
      let acc' := String (ascii_of_nat (48 + n mod 10)%nat) acc in
      match (n / 10)%nat with
      | O => acc'
      | q => show_nat_fuel f q acc'
      end
  end.

Definition show_nat (n : nat) : string := show_nat_fuel (S n) n EmptyString.

Definition show_Z (z : Z) : string :=
  if (z <? 0)%Z then "-" ++ show_nat (Z.to_nat (- z)) else show_nat (Z.to_nat z).

Definition SLASH : ascii := "/".

(** The prefix of [s] up to and including its last ['/'] ("" if none). *)
Fixpoint upto_last_slash (s : string) : string :=
  match s with
  | EmptyString => EmptyString
  | String c s' =>
      let r := upto_last_slash s' in
      if String.eqb r EmptyString then
        (if ascii_eqb c SLASH then String c EmptyString else EmptyString)
      else String c r
  end.

Fixpoint all_slashes (s : string) : bool :=
  match s with
  | EmptyString => true
  | String c s' => ascii_eqb c SLASH && all_slashes s'
  end.

Fixpoint rstrip_slash (s : string) : string :=
  match s with
  | EmptyString => EmptyString
  | String c s' =>
      let r := rstrip_slash s' in
      if ascii_eqb c SLASH && String.eqb r EmptyString then EmptyString else String c r
  end.

(** [os.path.dirname] (posixpath):
    [head = p[:p.rfind('/')+1]]; strip its trailing slashes unless it
    consists of slashes only. *)
Definition dirname (p : string) : string :=
  let head := upto_last_slash p in
  if negb (String.eqb head EmptyString) && negb (all_slashes head)
  then rstrip_slash head else head.

(* ------------------------------------------------------------------ *)
(** ** Base64 (RFC 4648), as [base64.b64encode] and GNU [base64 -d] *)

Definition b64_alphabet : string :=
  "ABCDEFGHIJKLMNOPQRSTUVWXYZabcdefghijklmnopqrstuvwxyz0123456789+/".

Definition PAD : ascii := "=".

Definition byte_val (c : ascii) : Z := Z.of_N (N_of_ascii c).
Definition byte_of (z : Z) : ascii := ascii_of_N (Z.to_N z).

(** The character encoding a sextet [v] (0 <= v < 64). *)
Definition b64_char (v : Z) : ascii :=
  match String.get (Z.to_nat v) b64_alphabet with
  | Some c => c
  | None => PAD
  end.

(** The sextet a character of the alphabet encodes. *)
Definition b64_val (c : ascii) : option Z :=
  let n := byte_val c in
  if ((65 <=? n) && (n <=? 90))%Z then Some (n - 65)%Z
  else if ((97 <=? n) && (n <=? 122))%Z then Some (n - 71)%Z
  else if ((48 <=? n) && (n <=? 57))%Z then Some (n + 4)%Z
  else if (n =? 43)%Z then Some 62%Z
  else if (n =? 47)%Z then Some 63%Z
  else None.

(** [base64.b64encode]: each group of three bytes becomes four
    characters; a final group of one or two bytes is padded with ['=']. *)
Fixpoint b64_encode (s : string) : string :=
  match s with
  | String a (String b (String c rest)) =>
      let x := byte_val a in let y := byte_val b in let z := byte_val c in
      String (b64_char (x / 4))
        (String (b64_char ((x mod 4) * 16 + y / 16))
          (String (b64_char ((y mod 16) * 4 + z / 64))
            (String (b64_char (z mod 64)) (b64_encode rest))))
  | String a (String b EmptyString) =>
      let x := byte_val a in let y := byte_val b in
      String (b64_char (x / 4))
        (String (b64_char ((x mod 4) * 16 + y / 16))
          (String (b64_char ((y mod 16) * 4))
            (String PAD EmptyString)))
  | String a EmptyString =>
      let x := byte_val a in
      String (b64_char (x / 4))
        (String (b64_char ((x mod 4) * 16))
          (String PAD (String PAD EmptyString)))
  | EmptyString => EmptyString
  end%Z.

(** Decoding of newline-free base64 text: groups of four characters,
    padding only in the last group; anything else is invalid input. *)
Fixpoint b64_decode (s : string) : option string :=
  match s with
  | EmptyString => Some EmptyString
  | String c1 (String c2 (String c3 (String c4 rest))) =>
      match b64_val c1, b64_val c2 with
      | Some v1, Some v2 =>
          let b1 := byte_of (v1 * 4 + v2 / 16) in
          if ascii_eqb c3 PAD then
            if ascii_eqb c4 PAD && String.eqb rest EmptyString
            then Some (String b1 EmptyString) else None
          else
            match b64_val c3 with
            | None => None
            | Some v3 =>
                let b2 := byte_of ((v2 mod 16) * 16 + v3 / 4) in
                if ascii_eqb c4 PAD then
                  if String.eqb rest EmptyString
                  then Some (String b1 (String b2 EmptyString)) else None
                else
                  match b64_val c4, b64_decode rest with
                  | Some v4, Some r =>
                      Some (String b1 (String b2
                              (String (byte_of ((v3 mod 4) * 64 + v4)) r)))
                  | _, _ => None
                  end
            end
      | _, _ => None
      end
  | _ => None
  end%Z.

Fixpoint drop_newlines (s : string) : string :=
  match s with
  | EmptyString => EmptyString
  | String c s' => if ascii_eqb c LF then drop_newlines s' else String c (drop_newlines s')
  end.

(** GNU [base64 -d] on its standard input: newlines are ignored. *)
Definition base64_d (input : string) : option string :=
  b64_decode (drop_newlines input).

(* ------------------------------------------------------------------ *)
(** ** The remote side and the command monad *)

(** The remote file system: the content of each existing regular file. *)
Definition FS := string -> option string.

Definition fs_set (fs : FS) (p : string) (d : string) : FS :=
  fun q => if String.eqb q p then Some d else fs q.

(** State: the file system and the commands issued so far. *)
Definition St : Type := (FS * list string)%type.

Definition M (A : Type) : Type := St -> A * St.

Definition ret {A} (a : A) : M A := fun s => (a, s).

Definition bind {A B} (m : M A) (k : A -> M B) : M B :=
  fun s => let (a, s') := m s in k a s'.

Notation "x <- m ;; k" := (bind m (fun x => k))
  (at level 61, m at next level, right associativity).
Notation "' p <- m ;; k" := (bind m (fun x => match x with p => k end))
  (at level 61, p pattern, m at next level, right associativity).

(* ------------------------------------------------------------------ *)
(** ** FileManager *)

Section FileManager.

(** [self.executor.execute(cmd, timeout=...)]. *)
Variable exec : string -> FS -> (string * Z) * FS.

(** [_run_command]: run [cmd] and record it in the trace. *)
Definition run_command (cmd : string) : M (string * Z) :=
  fun '(fs, tr) =>
    let '(r, fs') := exec cmd fs in (r, (fs', app tr [cmd])).

(** The command [read_file] builds. *)
Definition read_cmd (file_path : string) (offset limit : option Z) : string :=
  match offset, limit with
  | Some o, Some l =>
      "tail -n +" ++ show_Z o ++ " '" ++ file_path ++ "' 2>&1 | head -n "
        ++ show_Z l ++ " | nl -ba -v " ++ show_Z o
  | None, Some l =>
      "head -n " ++ show_Z l ++ " '" ++ file_path ++ "' 2>&1 | nl -ba"
  | _, None =>
      "nl -ba '" ++ file_path ++ "' 2>&1"
  end.

(** How [read_file] classifies the command's result. *)
Definition read_result (file_path output : string) (code : Z) : string * bool :=
  if contains "No such file or directory" output || contains "cannot open" output
  then ("File not found: " ++ file_path, true)
  else if negb (code =? 0)%Z && negb (String.eqb output EmptyString)
  then ("Error reading file: " ++ output, true)
  else (output, false).

Definition read_file (file_path : string) (offset limit : option Z)
  : M (string * bool) :=
  '(output, code) <- run_command (read_cmd file_path offset limit) ;;
  ret (read_result file_path output code).

Definition mkdir_cmd (dir_path : string) : string :=
  "mkdir -p '" ++ dir_path ++ "'".

Definition write_cmd (encoded_content file_path : string) : string :=
  "echo '" ++ encoded_content ++ "' | base64 -d > '" ++ file_path ++ "'".

Definition write_file (file_path content : string) : M (string * bool) :=
  _ <- (let dir_path := dirname file_path in
        if negb (String.eqb dir_path EmptyString)
        then _ <- run_command (mkdir_cmd dir_path) ;; ret tt
        else ret tt) ;;
  let encoded_content := b64_encode content in
  '(output, code) <- run_command (write_cmd encoded_content file_path) ;;
  if negb (code =? 0)%Z then ret ("Error writing file: " ++ output, true)
  else ret ("Successfully wrote to " ++ file_path, false).

Definition BSL : ascii := "\".

(** [escape_for_sed], the nine replacements in the source's order. *)
Definition escape_for_sed (s : string) : string :=
  let s := replace_char BSL "\\" s in
  let s := replace_char "/" "\/" s in
  let s := replace_char "." "\." s in
  let s := replace_char "*" "\*" s in
  let s := replace_char "[" "\[" s in
  let s := replace_char "]" "\]" s in
  let s := replace_char "^" "\^" s in
  let s := replace_char "$" "\$" s in
  let s := replace_char "&" "\&" s in
  s.

Definition probe_cmd (file_path : string) : string :=
  "cp '" ++ file_path ++ "' '" ++ file_path ++ ".bak' 2>&1".

Definition backup_cmd (file_path : string) : string :=
  "cp '" ++ file_path ++ "' '" ++ file_path ++ ".bak'".

(** The shell text of the sed script and of the whole sed command. *)
Definition sed_script (escaped_old escaped_new : string) (replace_all : bool)
  : string :=
  if replace_all then "s/" ++ escaped_old ++ "/" ++ escaped_new ++ "/g"
  else "0,/" ++ escaped_old ++ "/s//" ++ escaped_new ++ "/".

Definition sed_cmd (file_path escaped_old escaped_new : string)
  (replace_all : bool) : string :=
  "sed -i '" ++ sed_script escaped_old escaped_new replace_all ++ "' '"
    ++ file_path ++ "'".

Definition cleanup_cmd (file_path : string) : string :=
  "rm -f '" ++ file_path ++ ".bak'".

Definition edit_file (file_path old_string new_string : string)
  (replace_all : bool) : M (string * bool) :=
  '(output, code) <- run_command (probe_cmd file_path) ;;
  if contains "No such file or directory" output || negb (code =? 0)%Z
  then ret ("File not found: " ++ file_path, true)
  else
    let escaped_old := escape_for_sed old_string in
    let escaped_new := escape_for_sed new_string in
    _ <- run_command (backup_cmd file_path) ;;
    '(output, code) <- run_command
                          (sed_cmd file_path escaped_old escaped_new replace_all) ;;
    _ <- run_command (cleanup_cmd file_path) ;;
    if negb (code =? 0)%Z then ret ("Error editing file: " ++ output, true)
    else ret ("Successfully replaced "
                ++ (if replace_all then "all occurrences" else "first occurrence")
                ++ " in " ++ file_path, false).

(** The loop of [multi_edit_file]; [i] is the index of the next edit and
    [results] the lines accumulated so far. *)
Fixpoint multi_edit_loop (file_path : string) (i : nat)
  (edits : list (string * string * bool)) (results : list string)
  : M (string * bool) :=
  match edits with
  | [] => ret (join nl results, false)
  | (old_string, new_string, replace_all) :: rest =>
      '(result, is_error) <- edit_file file_path old_string new_string replace_all ;;
      if is_error && negb (contains "No matches found" result)
      then ret ("Error on edit " ++ show_nat (i + 1) ++ ": " ++ result, true)
      else multi_edit_loop file_path (S i) rest
             (app results ["Edit " ++ show_nat (i + 1) ++ ": " ++ result])
  end.

Definition multi_edit_file (file_path : string)
  (edits : list (string * string * bool)) : M (string * bool) :=
  multi_edit_loop file_path 0 edits [].

(** The per-path command of [get_metadata], with its line breaks and
    indentation. *)
Definition stat_cmd (file_path : string) : string :=
  let q := "'" ++ file_path ++ "'" in
  nl ++ "            if [ -e " ++ q ++ " ]; then" ++ nl
  ++ "                stat -c '%s %Y %U:%G %a' " ++ q
  ++ " 2>/dev/null || stat -f '%z %m %Su:%Sg %Lp' " ++ q ++ nl
  ++ "                echo -n ' '" ++ nl
  ++ "                file -b " ++ q ++ " 2>/dev/null || echo 'unknown'" ++ nl
  ++ "            else" ++ nl
  ++ "                echo 'not_found'" ++ nl
  ++ "            fi" ++ nl
  ++ "            ".

(** The block [get_metadata] appends for one path, given its output. *)
Definition metadata_block (file_path output : string) : string :=
  if contains "not_found" output then file_path ++ ": Not found"
  else
    let parts := py_split_max 4 (py_strip output) in
    if (5 <=? length parts)%nat then
      let size := nth 0 parts EmptyString in
      let mtime := nth 1 parts EmptyString in
      let owner := nth 2 parts EmptyString in
      let perms := nth 3 parts EmptyString in
      let filetype := join " " (skipn 4 parts) in
      file_path ++ ":" ++ nl ++ "  Size: " ++ size ++ " bytes" ++ nl
        ++ "  Type: " ++ filetype ++ nl ++ "  Owner: " ++ owner ++ nl
        ++ "  Permissions: " ++ perms
    else file_path ++ ": Unable to get metadata".

Fixpoint metadata_loop (file_paths : list string) (results : list string)
  : M (list string) :=
  match file_paths with
  | [] => ret results
  | file_path :: rest =>
      '(output, _) <- run_command (stat_cmd file_path) ;;
      metadata_loop rest (app results [metadata_block file_path output])
  end.

Definition get_metadata (file_paths : list string) : M (string * bool) :=
  results <- metadata_loop (firstn 10 file_paths) [] ;;
  ret (join (nl ++ nl) results, false).

End FileManager.

(* ------------------------------------------------------------------ *)
(** ** The shell tools the commands rely on

    These are not part of the repository: they describe what the remote
    shell does with the command texts built above, and appear only as
    hypotheses on [exec] (or in concrete executors). *)

(** The lines of a text, as [nl], [head] and [tail] see them: a final
    line without a newline is still a line. *)
Fixpoint lines (s : string) : list string :=
  match s with
  | EmptyString => []
  | String c s' =>
      if ascii_eqb c LF then EmptyString :: lines s'
      else match lines s' with
           | [] => [String c EmptyString]
           | l :: ls => String c l :: ls
           end
  end.

Fixpoint spaces (n : nat) : string :=
  match n with O => EmptyString | S n' => String " " (spaces n') end.

(** GNU [nl]'s default number format: right-aligned in six columns. *)
Definition pad6 (s : string) : string := spaces (6 - String.length s) ++ s.

(** One output line of [nl -ba]: number, TAB, the line, newline. *)
Definition nl_line (n : Z) (l : string) : string :=
  pad6 (show_Z n) ++ String TAB (l ++ nl).

(** [nl -ba -v start] on input lines none of which is a section delimiter. *)
Fixpoint nl_number (start : Z) (ls : list string) : string :=
  match ls with
  | [] => EmptyString
  | l :: ls' => nl_line start l ++ nl_number (start + 1)%Z ls'
  end.

(** GNU [nl]'s logical-page delimiters [\:\:\:], [\:\:] and [\:]; such a
    line is not printed but switches section (and numbering style), so
    [nl_number] only describes input without them. *)
Definition is_nl_delim (l : string) : bool :=
  String.eqb l "\:\:\:" || String.eqb l "\:\:" || String.eqb l "\:".

Definition no_delim_lines (s : string) : bool :=
  forallb (fun l => negb (is_nl_delim l)) (lines s).

(** [tail -n +k] and [head -n k] on lines (k >= 0). *)
Definition tail_plus (k : Z) (ls : list string) : list string :=
  skipn (Z.to_nat (k - 1)) ls.

Definition head_n (k : Z) (ls : list string) : list string :=
  firstn (Z.to_nat k) ls.

(** The spec's reading of a range: the lines with 1-based numbers in
    [[offset, offset+limit)] that exist, each paired with its number. *)
Definition numbered_range (offset limit : Z) (ls : list string)
  : list (Z * string) :=
  let avail := (Z.of_nat (length ls) - (offset - 1))%Z in
  map (fun k => ((offset + Z.of_nat k)%Z, nth (Z.to_nat (offset - 1) + k) ls EmptyString))
      (seq 0 (Z.to_nat (Z.min limit avail))).

Fixpoint render_numbered (ps : list (Z * string)) : string :=
  match ps with
  | [] => EmptyString
  | (n, l) :: ps' => nl_line n l ++ render_numbered ps'
  end.

(** *** GNU sed's reading of an [s] script (the two shapes [edit_file]
    emits). *)


Fixpoint str_has (c : ascii) (s : string) : bool :=
  match s with
  | EmptyString => false
  | String x s' => ascii_eqb x c || str_has c s'
  end.







    (* 0,/addr/s/re/rep/flags *)



(** *** The shell's word splitting, for spaces and single quotes only
    (other unquoted characters are taken as they are). [cur] is the word
    being read, if one has started. *)
Fixpoint sh_words (s : string) (inq : bool) (cur : option string)
  : option (list string) :=
  let w := match cur with Some w => w | None => EmptyString end in
  match s with
  | EmptyString => if inq then None else Some (match cur with Some w => [w] | None => [] end)
  | String c s' =>
      if inq then
        if ascii_eqb c "'" then sh_words s' false (Some w)
        else sh_words s' true (Some (w ++ String c EmptyString))
      else if ascii_eqb c "'" then sh_words s' true (Some w)
      else if ascii_eqb c " " then
        match sh_words s' false None with
        | Some ws => Some (match cur with Some w => w :: ws | None => ws end)
        | None => None
        end
      else sh_words s' false (Some (w ++ String c EmptyString))
  end.


(** The per-character form of [escape_for_sed]. *)
Definition esc1 (c : ascii) : string :=
  if str_has c "\/.*[]^$&" then String BSL (String c EmptyString)
  else String c EmptyString.

Fixpoint escape_chars (s : string) : string :=
  match s with
  | EmptyString => EmptyString
  | String c s' => esc1 c ++ escape_chars s'
  end.






(* ------------------------------------------------------------------ *)
(** ** Reference readings used in the statements *)

(** The edits run one after another, never stopping, with their
    results. *)
Fixpoint run_edits (exec : string -> FS -> (string * Z) * FS) (file_path : string)
  (edits : list (string * string * bool)) : M (list (string * bool)) :=
  match edits with
  | [] => ret []
  | (old_string, new_string, replace_all) :: rest =>
      r <- edit_file exec file_path old_string new_string replace_all ;;
      rs <- run_edits exec file_path rest ;;
      ret (r :: rs)
  end.

(** An edit result [multi_edit_file] goes on after. *)
Definition tolerated (r : string * bool) : bool :=
  negb (snd r) || contains "No matches found" (fst r).

(** The result lines ["Edit i: ..."], numbered from [i]. *)
Fixpoint edit_lines (i : nat) (rs : list (string * bool)) : list string :=
  match rs with
  | [] => []
  | r :: rs' => ("Edit " ++ show_nat i ++ ": " ++ fst r) :: edit_lines (S i) rs'
  end.

(** The blocks of the paths, given the outputs of their commands. *)
Definition metadata_blocks (file_paths outputs : list string) : list string :=
  map (fun po => metadata_block (fst po) (snd po)) (combine file_paths outputs).

(** *** Concrete executors, for examples *)

Definition empty_fs : FS := fun _ => None.

(** Every command succeeds silently and changes nothing. *)
Definition exec_quiet (cmd : string) (fs : FS) : (string * Z) * FS :=
  ((EmptyString, 0%Z), fs).

(** As [exec_quiet], except that sed reports an error. *)
Definition exec_sed_fails (cmd : string) (fs : FS) : (string * Z) * FS :=
  if starts_with "sed " cmd
  then (("sed: -e expression #1, char 3: unterminated `s' command", 1%Z), fs)
  else ((EmptyString, 0%Z), fs).

(** A shell for the file [p]: [cp] fails when [p] is missing, the write
    of [C] decodes its base64 text into [p], [nl -ba] numbers [p]'s
    lines, and the [offset]/[limit] pipeline selects and numbers them. *)
Definition demo_shell (p C : string) (offset limit : Z) (cmd : string) (fs : FS)
  : (string * Z) * FS :=
  if String.eqb cmd (probe_cmd p) then
    match fs p with
    | Some _ => ((EmptyString, 0%Z), fs)
    | None => (("cp: cannot stat '" ++ p ++ "': No such file or directory", 1%Z), fs)
    end
  else if String.eqb cmd (write_cmd (b64_encode C) p) then
    match base64_d (b64_encode C ++ nl) with
    | Some d => ((EmptyString, 0%Z), fs_set fs p d)
    | None => (("base64: invalid input", 1%Z), fs)
    end
  else if String.eqb cmd (read_cmd p None None) then
    match fs p with
    | Some d => ((nl_number 1 (lines d), 0%Z), fs)
    | None => (("nl: " ++ p ++ ": No such file or directory", 1%Z), fs)
    end
  else if String.eqb cmd (read_cmd p (Some offset) (Some limit)) then
    match fs p with
    | Some d => ((nl_number offset (head_n limit (tail_plus offset (lines d))), 0%Z), fs)
    | None =>
        ((nl_line offset ("tail: cannot open '" ++ p ++ "' for reading: No such file or directory"),
          0%Z), fs)
    end
  else ((EmptyString, 0%Z), fs).

(** Sample files: line [k] (1-based) of [numbered_file f n] is [f k]. *)
Definition numbered_file (f : nat -> string) (n : nat) : string :=
  fold_right (fun k acc => f k ++ nl ++ acc) EmptyString (seq 1 n).

Definition plain_line (k : nat) : string := "line " ++ show_nat k.

Definition line5_cannot_open (k : nat) : string :=
  if Nat.eqb k 5 then "error: cannot open socket" else plain_line k.

(** A shell that answers the [head -n limit] read of [p] with GNU [head]
    and [nl -ba], and succeeds silently on anything else. *)
Definition head_shell (p : string) (limit : Z) (cmd : string) (fs : FS)
  : (string * Z) * FS :=
  if String.eqb cmd (read_cmd p None (Some limit)) then
    match fs p with
    | Some d => ((nl_number 1 (head_n limit (lines d)), 0%Z), fs)
    | None =>
        ((nl_line 1 ("head: cannot open '" ++ p ++ "' for reading: No such file or directory"),
          0%Z), fs)
    end
  else ((EmptyString, 0%Z), fs).

(** As [exec_quiet], except that sed reports "No matches found" for a
    script mentioning [zzz] and an error for one mentioning [BAD]. *)
Definition exec_sed_nomatch (cmd : string) (fs : FS) : (string * Z) * FS :=
  if starts_with "sed " cmd then
    if contains "zzz" cmd then (("No matches found for zzz", 1%Z), fs)
    else if contains "BAD" cmd then (("sed: -e expression #1, char 5: unknown command", 1%Z), fs)
    else ((EmptyString, 0%Z), fs)
  else ((EmptyString, 0%Z), fs).

(** U+00A0 (no-break space) in UTF-8. *)
Definition NBSP : string :=
  String (Ascii.ascii_of_nat 194) (String (Ascii.ascii_of_nat 160) EmptyString).

(* ================================================================== *)
(** * Properties *)

Ltac monad_simpl :=
  unfold bind, ret, run_command in *; simpl in *.

(** *** Helper lemmas *)

Lemma multi_edit_loop_prefix exec p pre post st rs st1 i results :
  run_edits exec p pre st = (rs, st1) ->
  forallb tolerated rs = true ->
  multi_edit_loop exec p i (pre ++ post) results st =
  multi_edit_loop exec p (i + length pre) post (app results (edit_lines (S i) rs)) st1.
Proof.
  revert st rs i results.
  induction pre as [|[[o n] ra] pre IH]; intros st rs i results Hrun Htol.
  - simpl in Hrun. unfold ret in Hrun. inversion Hrun; subst.
    rewrite Nat.add_0_r, app_nil_r. reflexivity.
  - simpl in Hrun. unfold bind, ret in Hrun.
    destruct (edit_file exec p o n ra st) as [[msg err] st'] eqn:He.
    destruct (run_edits exec p pre st') as [rs' st''] eqn:Hr.
    inversion Hrun; subst. simpl in Htol. apply andb_prop in Htol as [Ht Htol].
    simpl. unfold bind. rewrite He.
    unfold tolerated in Ht. simpl in Ht.
    replace (err && negb (contains "No matches found" msg)) with false
      by (destruct err; simpl in *; [rewrite Ht|]; reflexivity).
    rewrite (IH st' rs' (S i) _ Hr Htol).
    rewrite <- app_assoc. simpl.
    replace (S i + length pre) with (i + S (length pre)) by lia.
    replace (i + 1) with (S i) by lia. simpl. rewrite Nat.add_succ_r. reflexivity.
Qed.

Lemma metadata_loop_spec exec ps results fs tr :
  exists outs fs',
    length outs = length ps /\
    metadata_loop exec ps results (fs, tr) =
    (app results (metadata_blocks ps outs), (fs', app tr (map stat_cmd ps))).
Proof.
  revert results fs tr.
  induction ps as [|p ps IH]; intros results fs tr.
  - exists [], fs. simpl. rewrite !app_nil_r. split; reflexivity.
  - simpl. unfold bind, run_command.
    destruct (exec (stat_cmd p) fs) as [[o c] fs1] eqn:He.
    destruct (IH (app results [metadata_block p o]) fs1 (app tr [stat_cmd p]))
      as [outs [fs' [Hl Hm]]].
    exists (o :: outs), fs'. split; [simpl; lia|].
    rewrite Hm. rewrite <- !app_assoc. reflexivity.
Qed.

Lemma py_split_max_length k s : (length (py_split_max k s) <= S k)%nat.
Proof.
  revert s. induction k as [|k IH]; intros s; cbn [py_split_max].
  - destruct (py_lstrip s); cbn [length]; lia.
  - destruct (py_lstrip s) as [|c s1]; cbn [length]; [lia|].
    destruct (take_word (String c s1)) as [w r]. cbn [length]. specialize (IH r). lia.
Qed.

(** *** C2 *)

(** C2: [multi_edit_file] runs the edits in order through [edit_file];
    when every edit before [e] was tolerated (no error, or an error
    mentioning "No matches found") and [e] fails otherwise, it stops right
    after [e] with "Error on edit <1-based index of e>: <message>" and the
    error flag; when every edit is tolerated, it returns the lines
    "Edit i: <result>" joined by newlines, without the error flag. *)
Theorem multi_edit_file_spec exec p :
  (forall pre e post st rs st1 msg st2,
      run_edits exec p pre st = (rs, st1) ->
      forallb tolerated rs = true ->
      edit_file exec p (fst (fst e)) (snd (fst e)) (snd e) st1 = ((msg, true), st2) ->
      contains "No matches found" msg = false ->
      multi_edit_file exec p (pre ++ e :: post) st =
      (("Error on edit " ++ show_nat (length pre + 1) ++ ": " ++ msg, true), st2)) /\
  (forall edits st rs st1,
      run_edits exec p edits st = (rs, st1) ->
      forallb tolerated rs = true ->
      multi_edit_file exec p edits st = ((join nl (edit_lines 1 rs), false), st1)).
Proof.
  split.
  - intros pre [[o n] ra] post st rs st1 msg st2 Hrun Htol He Hm.
    unfold multi_edit_file.
    rewrite (multi_edit_loop_prefix exec p pre (( o, n, ra) :: post) st rs st1 0 [] Hrun Htol).
    simpl in He. simpl. unfold bind. rewrite He. rewrite Hm. simpl. reflexivity.
  - intros edits st rs st1 Hrun Htol. unfold multi_edit_file.
    rewrite <- (app_nil_r edits).
    rewrite (multi_edit_loop_prefix exec p edits [] st rs st1 0 [] Hrun Htol).
    reflexivity.
Qed.

Lemma multi_edit_file_spec_witness :
  multi_edit_file exec_sed_nomatch "f" [("zzz", "a", true); ("BAD", "b", false); ("c", "d", true)]
    (empty_fs, [])
  = (("Error on edit 2: Error editing file: sed: -e expression #1, char 5: unknown command", true),
     (empty_fs, [probe_cmd "f"; backup_cmd "f"; sed_cmd "f" "zzz" "a" true; cleanup_cmd "f";
                 probe_cmd "f"; backup_cmd "f"; sed_cmd "f" "BAD" "b" false; cleanup_cmd "f"]))
  /\ multi_edit_file exec_sed_nomatch "f" [("zzz", "a", true); ("c", "d", false)] (empty_fs, [])
  = (("Edit 1: Error editing file: No matches found for zzz" ++ nl
      ++ "Edit 2: Successfully replaced first occurrence in f", false),
     (empty_fs, [probe_cmd "f"; backup_cmd "f"; sed_cmd "f" "zzz" "a" true; cleanup_cmd "f";
                 probe_cmd "f"; backup_cmd "f"; sed_cmd "f" "c" "d" false; cleanup_cmd "f"])).
Proof.
  split.
  - refine (proj1 (multi_edit_file_spec exec_sed_nomatch "f") [("zzz", "a", true)]
             ("BAD", "b", false) [("c", "d", true)] (empty_fs, [])
             [("Error editing file: No matches found for zzz", true)]
             (empty_fs, [probe_cmd "f"; backup_cmd "f"; sed_cmd "f" "zzz" "a" true; cleanup_cmd "f"])
             "Error editing file: sed: -e expression #1, char 5: unknown command"
             (empty_fs, [probe_cmd "f"; backup_cmd "f"; sed_cmd "f" "zzz" "a" true; cleanup_cmd "f";
                         probe_cmd "f"; backup_cmd "f"; sed_cmd "f" "BAD" "b" false; cleanup_cmd "f"])
             _ _ _ _); reflexivity.
  - refine (proj2 (multi_edit_file_spec exec_sed_nomatch "f") _ (empty_fs, [])
             [("Error editing file: No matches found for zzz", true);
              ("Successfully replaced first occurrence in f", false)]
             (empty_fs, [probe_cmd "f"; backup_cmd "f"; sed_cmd "f" "zzz" "a" true; cleanup_cmd "f";
                         probe_cmd "f"; backup_cmd "f"; sed_cmd "f" "c" "d" false; cleanup_cmd "f"])
             _ _); reflexivity.
Defined.

(** *** C3 *)

(** C3: when the first [cp] (the probe) reports "No such file or
    directory" or exits non-zero, [edit_file] answers "File not found"
    with the error flag after that one command: no backup, sed or cleanup
    command is issued, and the file is as the probe left it, which is
    unchanged when [cp] does not write its source. *)
Theorem edit_file_probe_failure exec p old_string new_string replace_all fs tr
    output code fs1 :
  exec (probe_cmd p) fs = ((output, code), fs1) ->
  contains "No such file or directory" output = true \/ code <> 0%Z ->
  edit_file exec p old_string new_string replace_all (fs, tr)
  = (("File not found: " ++ p, true), (fs1, app tr [probe_cmd p]))
  /\ (fs1 p = fs p -> fst (snd (edit_file exec p old_string new_string replace_all (fs, tr))) p = fs p).
Proof.
  intros He Hfail.
  assert (Hr : edit_file exec p old_string new_string replace_all (fs, tr)
               = (("File not found: " ++ p, true), (fs1, app tr [probe_cmd p]))).
  { unfold edit_file, bind, run_command. rewrite He.
    destruct Hfail as [Hc | Hc].
    - rewrite Hc. reflexivity.
    - apply Z.eqb_neq in Hc. rewrite Hc, orb_true_r. reflexivity. }
  split; [exact Hr|]. rewrite Hr. simpl. auto.
Qed.

Lemma edit_file_probe_failure_witness :
  edit_file (demo_shell "f" "" 1 1) "f" "a" "b" false (empty_fs, [])
  = (("File not found: f", true), (empty_fs, [probe_cmd "f"])).
Proof.
  exact (proj1 (edit_file_probe_failure (demo_shell "f" "" 1 1) "f" "a" "b" false
                  empty_fs [] _ _ _ eq_refl (or_introl eq_refl))).
Defined.

(** *** C5 *)

(** C5, as stated: a read whose command exits 0 with non-empty output is
    never an error.  It fails: output with the text "cannot open" (here a
    file line) is reported as a missing file. *)
Lemma read_file_marker_in_output :
  ~ (forall exec p offset limit fs tr output fs',
        exec (read_cmd p offset limit) fs = ((output, 0%Z), fs') ->
        output <> EmptyString ->
        snd (fst (read_file exec p offset limit (fs, tr))) = false).
Proof.
  intros H.
  set (out := nl_line 1 "I cannot open the door").
  specialize (H (fun _ fs => ((out, 0%Z), fs)) "f" None None empty_fs [] out empty_fs
                eq_refl ltac:(discriminate)).
  vm_compute in H. discriminate H.
Qed.

(** C5, amended: the not-found test runs first.  A command that exits 0
    with output containing neither "No such file or directory" nor
    "cannot open" is returned as it is, without the error flag; output
    containing either text is reported as "File not found: <path>" with the
    error flag, whatever the exit code. *)
Theorem read_file_not_found_first exec p offset limit fs tr output code fs' :
  exec (read_cmd p offset limit) fs = ((output, code), fs') ->
  (contains "No such file or directory" output = false ->
   contains "cannot open" output = false ->
   code = 0%Z ->
   read_file exec p offset limit (fs, tr)
   = ((output, false), (fs', app tr [read_cmd p offset limit]))) /\
  (contains "No such file or directory" output || contains "cannot open" output = true ->
   read_file exec p offset limit (fs, tr)
   = (("File not found: " ++ p, true), (fs', app tr [read_cmd p offset limit]))).
Proof.
  intros He. unfold read_file, bind, run_command, ret. rewrite He.
  unfold read_result. split.
  - intros H1 H2 Hc. subst code. rewrite H1, H2. reflexivity.
  - intros H. rewrite H. reflexivity.
Qed.

Lemma read_file_not_found_first_witness :
  read_file (fun _ fs => ((nl_line 1 "hello", 0%Z), fs)) "f" None None (empty_fs, [])
  = ((nl_line 1 "hello", false), (empty_fs, [read_cmd "f" None None]))
  /\ read_file (fun _ fs => ((nl_line 1 "cannot open", 0%Z), fs)) "f" None None (empty_fs, [])
  = (("File not found: f", true), (empty_fs, [read_cmd "f" None None])).
Proof.
  split.
  - exact (proj1 (read_file_not_found_first (fun _ fs => ((nl_line 1 "hello", 0%Z), fs))
                    "f" None None empty_fs [] _ 0%Z empty_fs eq_refl) eq_refl eq_refl eq_refl).
  - exact (proj2 (read_file_not_found_first (fun _ fs => ((nl_line 1 "cannot open", 0%Z), fs))
                    "f" None None empty_fs [] _ 0%Z empty_fs eq_refl) eq_refl).
Defined.

(** *** C7 *)

(** C7: [get_metadata] issues exactly the per-path commands of the first
    [min 10 (length paths)] paths, in order, and returns the blocks of
    those paths joined by blank lines, never with the error flag. *)
Theorem get_metadata_first_ten exec paths fs tr :
  exists outputs fs',
    length outputs = Nat.min 10 (length paths) /\
    get_metadata exec paths (fs, tr) =
    ((join (nl ++ nl) (metadata_blocks (firstn 10 paths) outputs), false),
     (fs', app tr (map stat_cmd (firstn 10 paths)))).
Proof.
  unfold get_metadata, bind, ret.
  destruct (metadata_loop_spec exec (firstn 10 paths) [] fs tr) as [outs [fs' [Hl Hm]]].
  exists outs, fs'. split.
  - rewrite Hl, length_firstn. reflexivity.
  - rewrite Hm. reflexivity.
Qed.

(** *** C8 *)

(** C8: for an output without "not_found", the stripped output is split
    into at most 5 whitespace-separated parts; with 5 parts the block
    reports size, type (the fifth part, the rest of the text as it is),
    owner and permissions; with fewer it reports "Unable to get metadata";
    and the batch still yields one block for each of the first ten paths. *)
Theorem metadata_block_fields p output :
  contains "not_found" output = false ->
  let parts := py_split_max 4 (py_strip output) in
  (length parts <= 5)%nat /\
  ((5 <= length parts)%nat ->
   metadata_block p output =
   p ++ ":" ++ nl ++ "  Size: " ++ nth 0 parts EmptyString ++ " bytes" ++ nl
     ++ "  Type: " ++ nth 4 parts EmptyString ++ nl
     ++ "  Owner: " ++ nth 2 parts EmptyString ++ nl
     ++ "  Permissions: " ++ nth 3 parts EmptyString) /\
  ((length parts < 5)%nat -> metadata_block p output = p ++ ": Unable to get metadata") /\
  (forall exec paths fs tr, exists outputs fs',
     length outputs = length (firstn 10 paths) /\
     get_metadata exec paths (fs, tr) =
     ((join (nl ++ nl) (metadata_blocks (firstn 10 paths) outputs), false),
      (fs', app tr (map stat_cmd (firstn 10 paths))))).
Proof.
  intros Hnf parts.
  assert (Hlen : (length parts <= 5)%nat) by apply py_split_max_length.
  split; [exact Hlen|]. split; [|split].
  - intros H5. unfold metadata_block. rewrite Hnf. fold parts.
    replace (5 <=? length parts)%nat with true by (symmetry; apply Nat.leb_le; exact H5).
    assert (Hs : skipn 4 parts = [nth 4 parts EmptyString]).
    { destruct parts as [|a0 [|a1 [|a2 [|a3 [|a4 [|a5 r]]]]]]; simpl in *; try lia.
      reflexivity. }
    rewrite Hs. reflexivity.
  - intros H5. unfold metadata_block. rewrite Hnf. fold parts.
    replace (5 <=? length parts)%nat with false by (symmetry; apply Nat.leb_gt; exact H5).
    reflexivity.
  - intros exec paths fs tr.
    unfold get_metadata, bind, ret.
    destruct (metadata_loop_spec exec (firstn 10 paths) [] fs tr) as [outs [fs' [Hl Hm]]].
    exists outs, fs'. rewrite Hm. split; [exact Hl | reflexivity].
Qed.

Lemma metadata_block_fields_witness :
  metadata_block "/etc/hosts"
    ("158" ++ NBSP ++ "1700000000 root:root 644 ASCII text,  with CRLF" ++ nl)
  = "/etc/hosts:" ++ nl ++ "  Size: 158 bytes" ++ nl ++ "  Type: ASCII text,  with CRLF"
      ++ nl ++ "  Owner: root:root" ++ nl ++ "  Permissions: 644".
Proof.
  exact (proj1 (proj2 (metadata_block_fields "/etc/hosts"
           ("158" ++ NBSP ++ "1700000000 root:root 644 ASCII text,  with CRLF" ++ nl) eq_refl))
           ltac:(vm_compute; lia)).
Defined.

(** *** C9 *)

(** C9: [write_file]'s answer depends only on the write command's output
    and exit code: "Error writing file: <output>" with the error flag when
    the code is non-zero, "Successfully wrote to <path>" otherwise.  The
    [mkdir -p] run first (when the path has a directory part) contributes
    only its effect on the file system; its output and code are unused. *)
Theorem write_file_result exec p content fs tr :
  let d := dirname p in
  let mk := negb (String.eqb d EmptyString) in
  let fs1 := if mk then snd (exec (mkdir_cmd d) fs) else fs in
  let cmds := if mk then [mkdir_cmd d] else [] in
  write_file exec p content (fs, tr) =
  (let '((output, code), fs2) := exec (write_cmd (b64_encode content) p) fs1 in
   ((if negb (code =? 0)%Z then ("Error writing file: " ++ output, true)
     else ("Successfully wrote to " ++ p, false)),
    (fs2, app tr (app cmds [write_cmd (b64_encode content) p])))).
Proof.
  intros d mk fs1 cmds. unfold write_file, bind, run_command, ret.
  subst fs1 cmds mk. fold d.
  destruct (negb (String.eqb d EmptyString)).
  - destruct (exec (mkdir_cmd d) fs) as [[o c] fsm]. simpl.
    destruct (exec (write_cmd (b64_encode content) p) fsm) as [[o2 c2] fs2].
    rewrite <- app_assoc. destruct (negb (c2 =? 0)%Z); reflexivity.
  - destruct (exec (write_cmd (b64_encode content) p) fs) as [[o2 c2] fs2].
    destruct (negb (c2 =? 0)%Z); reflexivity.
Qed.

(** *** C10 *)

(** C10: a read whose command prints nothing is a successful read of the
    empty text, whatever the exit code. *)
Theorem read_file_empty_output exec p offset limit fs tr code fs' :
  exec (read_cmd p offset limit) fs = ((EmptyString, code), fs') ->
  read_file exec p offset limit (fs, tr)
  = ((EmptyString, false), (fs', app tr [read_cmd p offset limit])).
Proof.
  intros He. unfold read_file, bind, run_command, ret. rewrite He.
  unfold read_result. simpl. rewrite andb_false_r. reflexivity.
Qed.

Lemma read_file_empty_output_witness :
  read_file (fun _ fs => ((EmptyString, 1%Z), fs)) "missing" None None (empty_fs, [])
  = ((EmptyString, false), (empty_fs, [read_cmd "missing" None None])).
Proof.
  exact (read_file_empty_output (fun _ fs => ((EmptyString, 1%Z), fs)) "missing" None None
           empty_fs [] 1%Z empty_fs eq_refl).
Defined.

(** *** C4 *)

Lemma str_app_assoc (a b c : string) : a ++ (b ++ c) = (a ++ b) ++ c.
Proof. induction a as [|x a IH]; simpl; [reflexivity | now rewrite IH]. Qed.

Lemma str_app_nil_r (a : string) : a ++ EmptyString = a.
Proof. induction a as [|x a IH]; simpl; [reflexivity | now rewrite IH]. Qed.

Lemma str_has_app c a b : str_has c (a ++ b) = str_has c a || str_has c b.
Proof.
  induction a as [|x a IH]; simpl; [reflexivity|]. rewrite IH. apply orb_assoc.
Qed.

Lemma replace_char_app c r a b :
  replace_char c r (a ++ b) = replace_char c r a ++ replace_char c r b.
Proof.
  induction a as [|x a IH]; simpl; [reflexivity|]. rewrite IH. apply str_app_assoc.
Qed.

Lemma escape_for_sed_app a b :
  escape_for_sed (a ++ b) = escape_for_sed a ++ escape_for_sed b.
Proof. unfold escape_for_sed. rewrite !replace_char_app. reflexivity. Qed.

Ltac all_ascii c := destruct c as [[] [] [] [] [] [] [] []].

Lemma escape_for_sed_char c : escape_for_sed (String c EmptyString) = esc1 c.
Proof. all_ascii c; reflexivity. Qed.

Lemma escape_for_sed_chars s : escape_for_sed s = escape_chars s.
Proof.
  induction s as [|c s IH]; [reflexivity|].
  change (String c s) with (String c EmptyString ++ s).
  rewrite escape_for_sed_app, escape_for_sed_char, IH. reflexivity.
Qed.










Lemma sh_words_quoted s w rest :
  str_has "'" s = false ->
  sh_words (s ++ String "'" rest) true (Some w) = sh_words rest false (Some (w ++ s)).
Proof.
  revert w. induction s as [|c s IH]; intros w H.
  - simpl. rewrite str_app_nil_r. reflexivity.
  - simpl in H. apply orb_false_iff in H as [Hc Hs].
    simpl. rewrite Hc, (IH _ Hs), <- str_app_assoc. reflexivity.
Qed.






(** *** C1 *)

Lemma byte_val_range a : (0 <= byte_val a < 256)%Z.
Proof. unfold byte_val. pose proof (N_ascii_bounded a). lia. Qed.

Lemma byte_of_val a : byte_of (byte_val a) = a.
Proof. unfold byte_of, byte_val. rewrite N2Z.id. apply ascii_N_embedding. Qed.

Lemma b64_table :
  forallb (fun n => match b64_val (b64_char (Z.of_nat n)) with
                    | Some v => (v =? Z.of_nat n)%Z
                    | None => false
                    end) (seq 0 64) = true.
Proof. vm_compute. reflexivity. Qed.

Lemma b64_val_char v : (0 <= v < 64)%Z -> b64_val (b64_char v) = Some v.
Proof.
  intros Hv.
  pose proof (proj1 (forallb_forall _ _) b64_table (Z.to_nat v)) as H.
  cbv beta in H. rewrite Z2Nat.id in H by lia.
  destruct (b64_val (b64_char v)) as [w|] eqn:E.
  - apply Z.eqb_eq in H; [subst; reflexivity|]. apply in_seq. lia.
  - exfalso. assert (false = true) by (apply H, in_seq; lia). discriminate.
Qed.

Lemma b64_char_not v c :
  (0 <= v < 64)%Z -> b64_val c = None -> ascii_eqb (b64_char v) c = false.
Proof.
  intros Hv Hc. unfold ascii_eqb.
  destruct (ascii_dec (b64_char v) c) as [E|]; [|reflexivity].
  rewrite <- E, b64_val_char in Hc by exact Hv. discriminate.
Qed.

Ltac b64_range := Z.div_mod_to_equations; lia.

Ltac b64_facts :=
  repeat match goal with
  | |- context [b64_val (b64_char ?v)] =>
      rewrite (b64_val_char v) by b64_range
  | |- context [ascii_eqb (b64_char ?v) PAD] =>
      rewrite (b64_char_not v PAD) by (b64_range || reflexivity)
  | |- context [ascii_eqb (b64_char ?v) LF] =>
      rewrite (b64_char_not v LF) by (b64_range || reflexivity)
  end.

Lemma b64_string_ind (P : string -> Prop) :
  P EmptyString ->
  (forall a, P (String a EmptyString)) ->
  (forall a b, P (String a (String b EmptyString))) ->
  (forall a b c rest, P rest -> P (String a (String b (String c rest)))) ->
  forall s, P s.
Proof.
  intros H0 H1 H2 H3.
  assert (forall n s, String.length s <= n -> P s) as H.
  { induction n as [|n IH]; intros s Hs.
    - destruct s; [exact H0 | simpl in Hs; lia].
    - destruct s as [|a [|b [|c rest]]]; auto.
      apply H3, IH. simpl in Hs. lia. }
  intros s. apply (H (String.length s)). lia.
Qed.

Lemma b64_decode_encode s : b64_decode (b64_encode s) = Some s.
Proof.
  induction s as [|a|a b|a b c rest IH] using b64_string_ind; [reflexivity| | |].
  - pose proof (byte_val_range a).
    cbn [b64_encode b64_decode]. b64_facts. simpl.
    replace (byte_val a / 4 * 4 + (byte_val a mod 4 * 16) / 16)%Z with (byte_val a)
      by b64_range.
    rewrite byte_of_val. reflexivity.
  - pose proof (byte_val_range a). pose proof (byte_val_range b).
    cbn [b64_encode b64_decode]. b64_facts. simpl.
    replace (byte_val a / 4 * 4 + (byte_val a mod 4 * 16 + byte_val b / 16) / 16)%Z
      with (byte_val a) by b64_range.
    replace (((byte_val a mod 4 * 16 + byte_val b / 16) mod 16) * 16
             + (byte_val b mod 16 * 4) / 4)%Z
      with (byte_val b) by b64_range.
    rewrite !byte_of_val. reflexivity.
  - pose proof (byte_val_range a). pose proof (byte_val_range b).
    pose proof (byte_val_range c).
    cbn [b64_encode b64_decode]. b64_facts. rewrite IH.
    replace (byte_val a / 4 * 4 + (byte_val a mod 4 * 16 + byte_val b / 16) / 16)%Z
      with (byte_val a) by b64_range.
    replace (((byte_val a mod 4 * 16 + byte_val b / 16) mod 16) * 16
             + (byte_val b mod 16 * 4 + byte_val c / 64) / 4)%Z
      with (byte_val b) by b64_range.
    replace (((byte_val b mod 16 * 4 + byte_val c / 64) mod 4) * 64 + byte_val c mod 64)%Z
      with (byte_val c) by b64_range.
    rewrite !byte_of_val. reflexivity.
Qed.

Lemma drop_newlines_encode s : drop_newlines (b64_encode s) = b64_encode s.
Proof.
  induction s as [|a|a b|a b c rest IH] using b64_string_ind; [reflexivity| | |].
  - pose proof (byte_val_range a).
    cbn [b64_encode drop_newlines]. b64_facts. reflexivity.
  - pose proof (byte_val_range a). pose proof (byte_val_range b).
    cbn [b64_encode drop_newlines]. b64_facts. reflexivity.
  - pose proof (byte_val_range a). pose proof (byte_val_range b).
    pose proof (byte_val_range c).
    cbn [b64_encode drop_newlines]. b64_facts. rewrite IH. reflexivity.
Qed.

Lemma drop_newlines_app a b : drop_newlines (a ++ b) = drop_newlines a ++ drop_newlines b.
Proof.
  induction a as [|x a IH]; simpl; [reflexivity|].
  destruct (ascii_eqb x LF); simpl; rewrite IH; reflexivity.
Qed.

(** Round trip of the transport: what [base64 -d] makes of the echoed
    encoding is the content. *)
Lemma base64_d_echo content : base64_d (b64_encode content ++ nl) = Some content.
Proof.
  unfold base64_d. rewrite drop_newlines_app, drop_newlines_encode.
  simpl. rewrite str_app_nil_r. apply b64_decode_encode.
Qed.

Lemma ascii_eqb_sym a b : ascii_eqb a b = ascii_eqb b a.
Proof.
  unfold ascii_eqb.
  destruct (ascii_dec a b), (ascii_dec b a); congruence.
Qed.

Lemma ascii_eqb_true a b : ascii_eqb a b = true -> a = b.
Proof. unfold ascii_eqb. destruct (ascii_dec a b); congruence. Qed.

Lemma starts_with_app m s t : starts_with m s = true -> starts_with m (s ++ t) = true.
Proof.
  revert m. induction s as [|x s IH]; intros [|y m] H; simpl in *; auto; try discriminate.
  apply andb_prop in H as [H1 H2]. rewrite H1, (IH _ H2). reflexivity.
Qed.

Lemma contains_app_l m s t : contains m s = true -> contains m (s ++ t) = true.
Proof.
  induction s as [|x s IH]; intros H.
  - destruct m; [destruct t; reflexivity | discriminate].
  - simpl in *. apply orb_prop in H as [H | H].
    + pose proof (starts_with_app _ _ t H) as H'. simpl in H'. rewrite H'. reflexivity.
    + rewrite (IH H). apply orb_true_r.
Qed.

Lemma contains_app_r m s t : contains m t = true -> contains m (s ++ t) = true.
Proof.
  induction s as [|x s IH]; intros H; [exact H|].
  simpl. rewrite (IH H). apply orb_true_r.
Qed.

Lemma starts_with_sep m s c t :
  str_has c m = false -> starts_with m (s ++ String c t) = true -> starts_with m s = true.
Proof.
  revert m. induction s as [|x s IH]; intros [|y m] Hm H; simpl in *; auto.
  - apply andb_prop in H as [H _]. apply ascii_eqb_true in H. subst.
    unfold ascii_eqb in Hm. destruct (ascii_dec c c); [discriminate | congruence].
  - apply orb_false_iff in Hm as [_ Hm].
    apply andb_prop in H as [H1 H2]. rewrite H1. exact (IH _ Hm H2).
Qed.

Lemma contains_sep m s c t :
  str_has c m = false -> contains m (s ++ String c t) = true ->
  contains m s = true \/ contains m t = true.
Proof.
  intros Hm. induction s as [|x s IH]; intros H.
  - simpl in H. apply orb_prop in H as [H | H]; [|right; exact H].
    destruct m as [|y m]; [left; reflexivity|].
    simpl in H, Hm. apply andb_prop in H as [H _]. apply ascii_eqb_true in H. subst.
    unfold ascii_eqb in Hm. destruct (ascii_dec c c); [discriminate | congruence].
  - simpl in H. apply orb_prop in H as [H | H].
    + left. simpl. rewrite (starts_with_sep m (String x s) c t Hm H). reflexivity.
    + destruct (IH H) as [H' | H']; [left; simpl; rewrite H'; apply orb_true_r | right; exact H'].
Qed.

Lemma contains_first_absent m0 m s :
  str_has m0 s = false -> contains (String m0 m) s = false.
Proof.
  induction s as [|x s IH]; intros H; [reflexivity|].
  simpl in *. apply orb_false_iff in H as [H1 H2].
  rewrite ascii_eqb_sym, H1, (IH H2). reflexivity.
Qed.

Lemma show_nat_fuel_has q fuel n acc :
  (forall k, k < 10 -> ascii_eqb (ascii_of_nat (48 + k)) q = false) ->
  str_has q acc = false -> str_has q (show_nat_fuel fuel n acc) = false.
Proof.
  revert n acc. induction fuel as [|f IH]; intros n acc Hd Ha; [exact Ha|].
  cbn [show_nat_fuel].
  assert (Hc : str_has q (String (ascii_of_nat (48 + n mod 10)) acc) = false).
  { cbn [str_has]. rewrite Hd, Ha; [reflexivity|]. apply Nat.mod_upper_bound. lia. }
  destruct (n / 10); [exact Hc|]. apply IH; assumption.
Qed.

Lemma spaces_has q n : ascii_eqb " " q = false -> str_has q (spaces n) = false.
Proof.
  intros H. induction n; cbn [spaces str_has]; [reflexivity|]. rewrite H, IHn. reflexivity.
Qed.

Lemma pad6_has q z :
  (forall k, k < 10 -> ascii_eqb (ascii_of_nat (48 + k)) q = false) ->
  ascii_eqb " " q = false -> ascii_eqb "-" q = false ->
  str_has q (pad6 (show_Z z)) = false.
Proof.
  intros Hd Hs Hm. unfold pad6. rewrite str_has_app, spaces_has by exact Hs.
  cbn [orb]. unfold show_Z, show_nat. destruct (z <? 0)%Z.
  - cbn [append str_has]. rewrite Hm. apply show_nat_fuel_has; [exact Hd | reflexivity].
  - apply show_nat_fuel_has; [exact Hd | reflexivity].
Qed.

Ltac digits_differ :=
  let k := fresh "k" in let Hk := fresh "Hk" in
  intros k Hk; do 10 (destruct k as [|k]; [reflexivity|]); lia.

(** The numbered rendering contains a text starting with a letter other
    than a digit, space or '-', without TAB or newline, only if a line
    does. *)
Lemma nl_number_contains m0 m start ls :
  (forall k, k < 10 -> ascii_eqb (ascii_of_nat (48 + k)) m0 = false) ->
  ascii_eqb " " m0 = false -> ascii_eqb "-" m0 = false ->
  str_has TAB (String m0 m) = false -> str_has LF (String m0 m) = false ->
  Forall (fun l => contains (String m0 m) l = false) ls ->
  contains (String m0 m) (nl_number start ls) = false.
Proof.
  intros Hd Hs Hm Ht Hl Hls. revert start.
  induction Hls as [|l ls Hl0 Hls IH]; intros start; [reflexivity|].
  cbn [nl_number]. unfold nl_line.
  remember (pad6 (show_Z start)) as P eqn:HP.
  remember (nl_number (start + 1) ls) as R eqn:HR.
  replace ((P ++ String TAB (l ++ nl)) ++ R) with (P ++ String TAB (l ++ String LF R))
    by (rewrite <- str_app_assoc; cbn [append]; rewrite <- str_app_assoc; reflexivity).
  destruct (contains (String m0 m) (P ++ String TAB (l ++ String LF R))) eqn:E;
    [exfalso|reflexivity].
  destruct (contains_sep _ _ _ _ Ht E) as [E1 | E1].
  - subst P. rewrite contains_first_absent in E1 by (apply pad6_has; assumption).
    discriminate.
  - destruct (contains_sep _ _ _ _ Hl E1) as [E2 | E2].
    + rewrite Hl0 in E2. discriminate.
    + subst R. rewrite IH in E2. discriminate.
Qed.

Lemma lines_prefix s l0 ls : lines s = l0 :: ls -> exists t, s = l0 ++ t.
Proof.
  revert l0 ls. induction s as [|c s IH]; intros l0 ls H; simpl in H; [discriminate|].
  destruct (ascii_eqb c LF) eqn:Ec.
  - injection H as <- _. exists (String c s). reflexivity.
  - destruct (lines s) as [|l1 ls'] eqn:El.
    + injection H as <- _. exists s. reflexivity.
    + injection H as <- _. destruct (IH l1 ls' eq_refl) as [t ->].
      exists t. reflexivity.
Qed.

Lemma contains_cons m c s : contains m s = true -> contains m (String c s) = true.
Proof. intros H. simpl. rewrite H. apply orb_true_r. Qed.

Lemma lines_contains m s l :
  In l (lines s) -> contains m l = true -> contains m s = true.
Proof.
  revert l. induction s as [|c s IH]; intros l Hin Hc; simpl in Hin; [contradiction|].
  destruct (ascii_eqb c LF).
  - destruct Hin as [<- | Hin].
    + destruct m; [destruct s; reflexivity | discriminate].
    + apply contains_cons, (IH l Hin Hc).
  - destruct (lines s) as [|l1 ls] eqn:El.
    + destruct Hin as [<- | []].
      exact (contains_app_l m (String c EmptyString) s Hc).
    + destruct Hin as [<- | Hin].
      * destruct (lines_prefix s l1 ls El) as [t ->].
        exact (contains_app_l m (String c l1) t Hc).
      * apply contains_cons, (IH l (or_intror Hin) Hc).
Qed.

Lemma lines_no_marker m s :
  contains m s = false -> Forall (fun l => contains m l = false) (lines s).
Proof.
  intros H. apply Forall_forall. intros l Hin.
  destruct (contains m l) eqn:E; [|reflexivity].
  rewrite (lines_contains m s l Hin E) in H. discriminate.
Qed.

(** A rendering of marker-free lines contains neither marker. *)
Lemma nl_number_no_markers start ls :
  Forall (fun l => contains "No such file or directory" l = false) ls ->
  Forall (fun l => contains "cannot open" l = false) ls ->
  contains "No such file or directory" (nl_number start ls) = false /\
  contains "cannot open" (nl_number start ls) = false.
Proof.
  intros H1 H2. split.
  - apply nl_number_contains; try reflexivity; [digits_differ | exact H1].
  - apply nl_number_contains; try reflexivity; [digits_differ | exact H2].
Qed.

Lemma ascii_eqb_refl a : ascii_eqb a a = true.
Proof. unfold ascii_eqb. destruct (ascii_dec a a); congruence. Qed.

Lemma lines_nil s : lines s = [] -> s = EmptyString.
Proof.
  destruct s as [|c s]; [reflexivity|]. cbn [lines].
  destruct (ascii_eqb c LF); [discriminate|]. destruct (lines s); discriminate.
Qed.

(** The first line of a text is followed by a newline or ends it. *)
Lemma lines_head s l0 ls :
  lines s = l0 :: ls -> (exists t, s = l0 ++ String LF t) \/ s = l0.
Proof.
  revert l0 ls. induction s as [|c s IH]; intros l0 ls H; cbn [lines] in H; [discriminate|].
  destruct (ascii_eqb c LF) eqn:Ec.
  - injection H as <- _. apply ascii_eqb_true in Ec. subst c. left. exists s. reflexivity.
  - destruct (lines s) as [|l1 ls'] eqn:El.
    + injection H as <- _. apply lines_nil in El. subst s. right. reflexivity.
    + injection H as <- _. destruct (IH l1 ls' eq_refl) as [[t ->] | ->].
      * left. exists t. reflexivity.
      * right. reflexivity.
Qed.

(** A non-empty text without newline found in a text is found in one of
    its lines. *)
Lemma contains_some_line m0 m s :
  str_has LF (String m0 m) = false -> contains (String m0 m) s = true ->
  exists l, In l (lines s) /\ contains (String m0 m) l = true.
Proof.
  intros HL. induction s as [|c s IH]; intros H; [discriminate|].
  cbn [contains] in H. apply orb_prop in H as [H | H]; cbn [lines].
  - destruct (ascii_eqb c LF) eqn:Ec.
    + cbn [starts_with] in H. apply andb_prop in H as [H1 _].
      apply ascii_eqb_true in H1. apply ascii_eqb_true in Ec. subst.
      cbn [str_has] in HL. rewrite ascii_eqb_refl in HL. discriminate.
    + destruct (lines s) as [|l1 ls] eqn:El.
      * apply lines_nil in El. subst s. exists (String c EmptyString).
        split; [left; reflexivity|]. cbn [contains]. rewrite H. reflexivity.
      * exists (String c l1). split; [left; reflexivity|].
        destruct (lines_head s l1 ls El) as [[t ->] | ->].
        -- change (String c (l1 ++ String LF t)) with (String c l1 ++ String LF t) in H.
           apply starts_with_sep in H; [|exact HL].
           cbn [contains]. cbn [contains] in H. rewrite H. reflexivity.
        -- cbn [contains]. rewrite H. reflexivity.
  - destruct (IH H) as [l [Hin Hc]].
    destruct (ascii_eqb c LF).
    + exists l. split; [right; exact Hin | exact Hc].
    + destruct (lines s) as [|l1 ls]; [contradiction|].
      destruct Hin as [-> | Hin].
      * exists (String c l). split; [left; reflexivity | apply contains_cons, Hc].
      * exists l. split; [right; exact Hin | exact Hc].
Qed.

Lemma nl_number_has_line m start ls l :
  In l ls -> contains m l = true -> contains m (nl_number start ls) = true.
Proof.
  revert start. induction ls as [|l0 ls IH]; intros start Hin Hc; [contradiction|].
  cbn [nl_number]. destruct Hin as [<- | Hin].
  - apply contains_app_l. unfold nl_line. apply contains_app_r, contains_cons, contains_app_l.
    exact Hc.
  - apply contains_app_r, IH; assumption.
Qed.

(** The numbered rendering holds a marker exactly when one of the lines
    does. *)
Lemma nl_number_marker start ls m :
  m = "No such file or directory" \/ m = "cannot open" ->
  contains m (nl_number start ls) = existsb (contains m) ls.
Proof.
  intros Hm. destruct (existsb (contains m) ls) eqn:E.
  - apply existsb_exists in E as [l [Hin Hc]]. exact (nl_number_has_line m start ls l Hin Hc).
  - assert (F : Forall (fun l => contains m l = false) ls).
    { apply Forall_forall. intros l Hin. destruct (contains m l) eqn:C; [|reflexivity].
      assert (existsb (contains m) ls = true) by (apply existsb_exists; eauto). congruence. }
    destruct Hm as [-> | ->]; apply nl_number_contains; try reflexivity;
      [digits_differ | exact F | digits_differ | exact F].
Qed.

Lemma lines_marker s m :
  m = "No such file or directory" \/ m = "cannot open" ->
  existsb (contains m) (lines s) = contains m s.
Proof.
  intros Hm. destruct (contains m s) eqn:E.
  - apply existsb_exists.
    destruct Hm as [-> | ->]; apply (contains_some_line _ _ s); first [reflexivity | exact E].
  - destruct (existsb (contains m) (lines s)) eqn:E2; [|reflexivity].
    apply existsb_exists in E2 as [l [Hin Hc]].
    rewrite (lines_contains m s l Hin Hc) in E. discriminate.
Qed.

Lemma existsb_orb {A} (f g : A -> bool) ls :
  existsb (fun x => f x || g x) ls = existsb f ls || existsb g ls.
Proof.
  induction ls as [|a ls IH]; [reflexivity|]. cbn [existsb]. rewrite IH.
  destruct (f a), (g a), (existsb f ls), (existsb g ls); reflexivity.
Qed.

(** C1, as stated: [write_file] then [read_file] (no offset or limit)
    gives back the content numbered by [nl], given a shell whose
    [base64 -d] stores the decoded text and whose [nl -ba] numbers the
    lines.  It fails for the content "cannot open": the read reports a
    missing file. *)
Lemma write_then_read_marker :
  ~ (forall exec p content fs tr,
        (forall fs' d, base64_d (b64_encode content ++ nl) = Some d ->
           exec (write_cmd (b64_encode content) p) fs' = ((EmptyString, 0%Z), fs_set fs' p d)) ->
        (forall fs' d, fs' p = Some d -> no_delim_lines d = true ->
           exec (read_cmd p None None) fs' = ((nl_number 1 (lines d), 0%Z), fs')) ->
        no_delim_lines content = true ->
        fst (read_file exec p None None (snd (write_file exec p content (fs, tr))))
        = (nl_number 1 (lines content), false)).
Proof.
  intros H.
  specialize (H (demo_shell "f" "cannot open" 1 1) "f" "cannot open" empty_fs []).
  assert (Hw : forall fs' d, base64_d (b64_encode "cannot open" ++ nl) = Some d ->
            demo_shell "f" "cannot open" 1 1 (write_cmd (b64_encode "cannot open") "f") fs'
            = ((EmptyString, 0%Z), fs_set fs' "f" d)).
  { intros fs' d Hd. vm_compute in Hd. injection Hd as <-. reflexivity. }
  assert (Hr : forall fs' d, fs' "f" = Some d -> no_delim_lines d = true ->
            demo_shell "f" "cannot open" 1 1 (read_cmd "f" None None) fs'
            = ((nl_number 1 (lines d), 0%Z), fs')).
  { intros fs' d Hd _. unfold demo_shell. rewrite Hd. reflexivity. }
  specialize (H Hw Hr eq_refl). vm_compute in H. congruence.
Qed.

(** C1, amended: for a path without a single quote and content none of
    whose lines is an [nl] section delimiter, [write_file] succeeds (the
    base64 transport hands the content over unchanged, whatever quotes,
    backticks, dollars, backslashes or newlines it holds), and the
    following [read_file] returns the content's lines numbered from 1
    without the error flag when the content contains neither "No such
    file or directory" nor "cannot open", and "File not found: <path>"
    with the error flag when it contains either. *)
Theorem write_then_read exec p content fs tr :
  str_has "'" p = false ->
  (forall fs' d, base64_d (b64_encode content ++ nl) = Some d ->
     exec (write_cmd (b64_encode content) p) fs' = ((EmptyString, 0%Z), fs_set fs' p d)) ->
  (forall fs' d, fs' p = Some d -> no_delim_lines d = true ->
     exec (read_cmd p None None) fs' = ((nl_number 1 (lines d), 0%Z), fs')) ->
  no_delim_lines content = true ->
  fst (write_file exec p content (fs, tr)) = ("Successfully wrote to " ++ p, false) /\
  fst (read_file exec p None None (snd (write_file exec p content (fs, tr))))
  = (if contains "No such file or directory" content || contains "cannot open" content
     then ("File not found: " ++ p, true)
     else (nl_number 1 (lines content), false)).
Proof.
  intros _ Hw Hr Hdel.
  assert (Hw' : forall fs', exec (write_cmd (b64_encode content) p) fs'
                            = ((EmptyString, 0%Z), fs_set fs' p content))
    by (intros fs'; apply Hw, base64_d_echo).
  assert (Hst : exists fs1 tr1, write_file exec p content (fs, tr)
                  = (("Successfully wrote to " ++ p, false), (fs_set fs1 p content, tr1))).
  { unfold write_file, bind, run_command, ret.
    destruct (negb (String.eqb (dirname p) EmptyString)).
    - destruct (exec (mkdir_cmd (dirname p)) fs) as [[o c] fsm].
      rewrite Hw'. eexists; eexists; reflexivity.
    - rewrite Hw'. eexists; eexists; reflexivity. }
  destruct Hst as [fs1 [tr1 Hst]]. rewrite Hst. split; [reflexivity|].
  cbn [fst snd]. unfold read_file, bind, run_command, ret.
  rewrite (Hr _ content); [|unfold fs_set; rewrite String.eqb_refl; reflexivity | exact Hdel].
  unfold read_result.
  rewrite (nl_number_marker 1 (lines content) "No such file or directory") by (left; reflexivity).
  rewrite (nl_number_marker 1 (lines content) "cannot open") by (right; reflexivity).
  rewrite !lines_marker by ((left; reflexivity) || (right; reflexivity)).
  destruct (contains "No such file or directory" content || contains "cannot open" content);
    reflexivity.
Qed.

Lemma write_then_read_witness :
  (let content := "echo $HOME `id` 'q' \n" ++ nl ++ "  second line" in
   fst (write_file (demo_shell "dir/f.txt" content 1 1) "dir/f.txt" content (empty_fs, []))
   = ("Successfully wrote to dir/f.txt", false) /\
   fst (read_file (demo_shell "dir/f.txt" content 1 1) "dir/f.txt" None None
          (snd (write_file (demo_shell "dir/f.txt" content 1 1) "dir/f.txt" content
                  (empty_fs, []))))
   = (nl_number 1 (lines content), false))
  /\
  (let content := "line 1" ++ nl ++ "error: cannot open socket" in
   fst (write_file (demo_shell "dir/f.txt" content 1 1) "dir/f.txt" content (empty_fs, []))
   = ("Successfully wrote to dir/f.txt", false) /\
   fst (read_file (demo_shell "dir/f.txt" content 1 1) "dir/f.txt" None None
          (snd (write_file (demo_shell "dir/f.txt" content 1 1) "dir/f.txt" content
                  (empty_fs, []))))
   = ("File not found: dir/f.txt", true)).
Proof.
  split; intros content;
  (destruct (write_then_read (demo_shell "dir/f.txt" content 1 1) "dir/f.txt" content
               empty_fs [] eq_refl
               ltac:(intros fs' d Hd; vm_compute in Hd; injection Hd as <-; reflexivity)
               ltac:(intros fs' d Hd _; unfold demo_shell; rewrite Hd; reflexivity)
               eq_refl) as [H1 H2];
   split; [exact H1 | rewrite H2; reflexivity]).
Defined.

(** *** The [tail | head | nl -v] pipeline against the spec's range *)

Lemma firstn_as_nth {A} (d : A) (xs : list A) (L : nat) :
  firstn L xs = map (fun k => nth k xs d) (seq 0 (Nat.min L (length xs))).
Proof.
  revert L. induction xs as [|x xs IH]; intros L.
  - destruct L; reflexivity.
  - destruct L as [|L]; [reflexivity|].
    cbn [firstn length Nat.min seq map]. rewrite IH, <- seq_shift, map_map.
    reflexivity.
Qed.

Lemma nth_skipn_add {A} (d : A) (j k : nat) (ls : list A) :
  nth k (skipn j ls) d = nth (j + k) ls d.
Proof.
  revert ls. induction j as [|j IH]; intros ls; [reflexivity|].
  destruct ls as [|a ls]; cbn [skipn].
  - destruct k; reflexivity.
  - apply IH.
Qed.

Lemma range_lines o l ls :
  (1 <= o)%Z -> (0 <= l)%Z ->
  head_n l (tail_plus o ls) = map snd (numbered_range o l ls).
Proof.
  intros Ho Hl. unfold head_n, tail_plus, numbered_range. cbv zeta.
  rewrite map_map. cbn [snd]. rewrite (firstn_as_nth EmptyString), length_skipn.
  replace (Nat.min (Z.to_nat l) (length ls - Z.to_nat (o - 1)))
    with (Z.to_nat (Z.min l (Z.of_nat (length ls) - (o - 1)))) by lia.
  apply map_ext. intros k. apply nth_skipn_add.
Qed.

Lemma nl_number_seq o (f : nat -> string) n s :
  nl_number (o + Z.of_nat s) (map f (seq s n))
  = render_numbered (map (fun k => ((o + Z.of_nat k)%Z, f k)) (seq s n)).
Proof.
  revert s. induction n as [|n IH]; intros s; [reflexivity|].
  cbn [seq map nl_number render_numbered]. rewrite <- IH.
  replace (o + Z.of_nat s + 1)%Z with (o + Z.of_nat (S s))%Z by lia.
  reflexivity.
Qed.

Lemma nl_number_range o l ls :
  (1 <= o)%Z -> (0 <= l)%Z ->
  nl_number o (head_n l (tail_plus o ls)) = render_numbered (numbered_range o l ls).
Proof.
  intros Ho Hl. rewrite range_lines by assumption.
  unfold numbered_range. cbv zeta. rewrite map_map. cbn [snd].
  generalize (nl_number_seq o (fun k => nth (Z.to_nat (o - 1) + k) ls EmptyString)
                (Z.to_nat (Z.min l (Z.of_nat (length ls) - (o - 1)))) 0).
  cbn [Z.of_nat]. rewrite Z.add_0_r. auto.
Qed.

Lemma forallb_no_markers ls :
  forallb (fun l => negb (contains "No such file or directory" l || contains "cannot open" l)) ls
  = true ->
  Forall (fun l => contains "No such file or directory" l = false) ls /\
  Forall (fun l => contains "cannot open" l = false) ls.
Proof.
  intros H. rewrite forallb_forall in H. split; apply Forall_forall; intros l Hl;
    specialize (H l Hl); apply negb_true_iff, orb_false_iff in H; tauto.
Qed.

(** C6, as stated: for a positive offset and limit, [read_file] returns
    exactly the lines of [[offset, offset+limit)], numbered from
    [offset].  It fails on a 20-line file whose fifth line reads
    "error: cannot open socket": with offset 5 and limit 3 the read
    reports a missing file. *)
Lemma read_range_marker_line :
  ~ (forall exec p offset limit fs tr d,
        (0 < offset)%Z -> (0 < limit)%Z -> fs p = Some d ->
        (forall fs' d', fs' p = Some d' -> no_delim_lines d' = true ->
           exec (read_cmd p (Some offset) (Some limit)) fs'
           = ((nl_number offset (head_n limit (tail_plus offset (lines d'))), 0%Z), fs')) ->
        no_delim_lines d = true ->
        fst (read_file exec p (Some offset) (Some limit) (fs, tr))
        = (render_numbered (numbered_range offset limit (lines d)), false)).
Proof.
  intros H.
  specialize (H (demo_shell "f" EmptyString 5 3) "f" 5%Z 3%Z
                (fs_set empty_fs "f" (numbered_file line5_cannot_open 20)) []
                (numbered_file line5_cannot_open 20)).
  assert (Hr : forall fs' d', fs' "f" = Some d' -> no_delim_lines d' = true ->
            demo_shell "f" EmptyString 5 3 (read_cmd "f" (Some 5%Z) (Some 3%Z)) fs'
            = ((nl_number 5 (head_n 3 (tail_plus 5 (lines d'))), 0%Z), fs')).
  { intros fs' d' Hd _. unfold demo_shell. rewrite Hd. reflexivity. }
  specialize (H ltac:(lia) ltac:(lia) eq_refl Hr eq_refl).
  vm_compute in H. congruence.
Qed.

(** C6, amended: for a path without a single quote, a positive offset
    and limit, and a file none of whose lines is an [nl] section
    delimiter, [read_file] returns exactly the existing lines of
    [[offset, offset+limit)], numbered from [offset], without the error
    flag, unless one of these lines contains "No such file or directory"
    or "cannot open": then it returns "File not found: <path>" with the
    error flag. *)
Theorem read_file_range exec p offset limit fs tr d :
  str_has "'" p = false ->
  (0 < offset)%Z -> (0 < limit)%Z -> fs p = Some d ->
  (forall fs' d', fs' p = Some d' -> no_delim_lines d' = true ->
     exec (read_cmd p (Some offset) (Some limit)) fs'
     = ((nl_number offset (head_n limit (tail_plus offset (lines d'))), 0%Z), fs')) ->
  no_delim_lines d = true ->
  read_file exec p (Some offset) (Some limit) (fs, tr)
  = ((if existsb (fun l => contains "No such file or directory" l || contains "cannot open" l)
                 (map snd (numbered_range offset limit (lines d)))
      then ("File not found: " ++ p, true)
      else (render_numbered (numbered_range offset limit (lines d)), false)),
     (fs, tr ++ [read_cmd p (Some offset) (Some limit)])%list).
Proof.
  intros _ Ho Hl Hd Hr Hdel.
  unfold read_file, bind, run_command, ret.
  rewrite (Hr fs d Hd Hdel).
  assert (HL : head_n limit (tail_plus offset (lines d))
               = map snd (numbered_range offset limit (lines d)))
    by (apply range_lines; lia).
  assert (Hout : nl_number offset (head_n limit (tail_plus offset (lines d)))
                 = render_numbered (numbered_range offset limit (lines d)))
    by (apply nl_number_range; lia).
  unfold read_result.
  rewrite (nl_number_marker offset _ "No such file or directory") by (left; reflexivity).
  rewrite (nl_number_marker offset _ "cannot open") by (right; reflexivity).
  rewrite HL, existsb_orb.
  destruct (existsb (contains "No such file or directory")
              (map snd (numbered_range offset limit (lines d)))
            || existsb (contains "cannot open")
                 (map snd (numbered_range offset limit (lines d))));
    [reflexivity|].
  rewrite <- HL, Hout. reflexivity.
Qed.

Lemma read_file_range_witness :
  read_file (demo_shell "f" EmptyString 5 3) "f" (Some 5%Z) (Some 3%Z)
    (fs_set empty_fs "f" (numbered_file plain_line 20), [])
  = ((render_numbered [(5%Z, "line 5"); (6%Z, "line 6"); (7%Z, "line 7")], false),
     (fs_set empty_fs "f" (numbered_file plain_line 20), [read_cmd "f" (Some 5%Z) (Some 3%Z)]))
  /\
  read_file (demo_shell "f" EmptyString 5 3) "f" (Some 5%Z) (Some 3%Z)
    (fs_set empty_fs "f" (numbered_file line5_cannot_open 20), [])
  = (("File not found: f", true),
     (fs_set empty_fs "f" (numbered_file line5_cannot_open 20),
      [read_cmd "f" (Some 5%Z) (Some 3%Z)])).
Proof.
  split.
  - refine (eq_trans (read_file_range (demo_shell "f" EmptyString 5 3) "f" 5%Z 3%Z
                        (fs_set empty_fs "f" (numbered_file plain_line 20)) []
                        (numbered_file plain_line 20)
                        eq_refl ltac:(lia) ltac:(lia) eq_refl _ eq_refl) _).
    + intros fs' d' Hd _. unfold demo_shell. rewrite Hd. reflexivity.
    + reflexivity.
  - refine (eq_trans (read_file_range (demo_shell "f" EmptyString 5 3) "f" 5%Z 3%Z
                        (fs_set empty_fs "f" (numbered_file line5_cannot_open 20)) []
                        (numbered_file line5_cannot_open 20)
                        eq_refl ltac:(lia) ltac:(lia) eq_refl _ eq_refl) _).
    + intros fs' d' Hd _. unfold demo_shell. rewrite Hd. reflexivity.
    + vm_compute. reflexivity.
Defined.

(* ------------------------------------------------------------------ *)
(** ** Further properties of the FileManager code *)

(** *** [read_file]'s other modes *)

(** For a path without a single quote, an offset given without a limit
    is ignored: [read_file] issues the whole-file [nl -ba] command and
    returns every line numbered from 1. *)
Theorem read_file_offset_without_limit exec p o fs tr d :
  str_has "'" p = false ->
  fs p = Some d ->
  (forall fs' d', fs' p = Some d' -> no_delim_lines d' = true ->
     exec (read_cmd p None None) fs' = ((nl_number 1 (lines d'), 0%Z), fs')) ->
  no_delim_lines d = true ->
  contains "No such file or directory" d = false ->
  contains "cannot open" d = false ->
  read_file exec p (Some o) None (fs, tr)
  = ((nl_number 1 (lines d), false), (fs, tr ++ [read_cmd p None None])%list).
Proof.
  intros _ Hd Hr Hdel Hm1 Hm2.
  unfold read_file, bind, run_command, ret.
  change (read_cmd p (Some o) None) with (read_cmd p None None).
  rewrite (Hr fs d Hd Hdel).
  destruct (nl_number_no_markers 1 (lines d) (lines_no_marker _ _ Hm1)
              (lines_no_marker _ _ Hm2)) as [E1 E2].
  unfold read_result. rewrite E1, E2. reflexivity.
Qed.

Lemma read_file_offset_without_limit_witness :
  read_file (demo_shell "f" EmptyString 1 1) "f" (Some 7%Z) None
    (fs_set empty_fs "f" (numbered_file plain_line 3), [])
  = ((nl_number 1 (lines (numbered_file plain_line 3)), false),
     (fs_set empty_fs "f" (numbered_file plain_line 3), [read_cmd "f" None None])).
Proof.
  refine (read_file_offset_without_limit (demo_shell "f" EmptyString 1 1) "f" 7%Z
            (fs_set empty_fs "f" (numbered_file plain_line 3)) []
            (numbered_file plain_line 3) eq_refl eq_refl _ eq_refl eq_refl eq_refl).
  intros fs' d' Hd _. unfold demo_shell. rewrite Hd. reflexivity.
Defined.

(** For a path without a single quote, a limit without an offset:
    [head -n limit] piped into [nl -ba] returns the first [limit] lines
    (all of them if the file is shorter), numbered from 1. *)
Theorem read_file_limit_only exec p l fs tr d :
  str_has "'" p = false ->
  (0 <= l)%Z -> fs p = Some d ->
  (forall fs' d', fs' p = Some d' -> no_delim_lines d' = true ->
     exec (read_cmd p None (Some l)) fs'
     = ((nl_number 1 (head_n l (lines d')), 0%Z), fs')) ->
  no_delim_lines d = true ->
  forallb (fun l => negb (contains "No such file or directory" l || contains "cannot open" l))
          (map snd (numbered_range 1 l (lines d))) = true ->
  read_file exec p None (Some l) (fs, tr)
  = ((render_numbered (numbered_range 1 l (lines d)), false),
     (fs, tr ++ [read_cmd p None (Some l)])%list).
Proof.
  intros _ Hl Hd Hr Hdel Hm.
  unfold read_file, bind, run_command, ret.
  rewrite (Hr fs d Hd Hdel).
  change (head_n l (lines d)) with (head_n l (tail_plus 1 (lines d))).
  rewrite <- range_lines in Hm by lia.
  destruct (forallb_no_markers _ Hm) as [F1 F2].
  destruct (nl_number_no_markers 1 _ F1 F2) as [E1 E2].
  unfold read_result. rewrite E1, E2.
  rewrite nl_number_range by lia. reflexivity.
Qed.

Lemma read_file_limit_only_witness :
  read_file (head_shell "f" 2) "f" None (Some 2%Z)
    (fs_set empty_fs "f" (numbered_file plain_line 5), [])
  = ((render_numbered [(1%Z, "line 1"); (2%Z, "line 2")], false),
     (fs_set empty_fs "f" (numbered_file plain_line 5), [read_cmd "f" None (Some 2%Z)])).
Proof.
  refine (eq_trans (read_file_limit_only (head_shell "f" 2) "f" 2%Z
                      (fs_set empty_fs "f" (numbered_file plain_line 5)) []
                      (numbered_file plain_line 5)
                      eq_refl ltac:(lia) eq_refl _ eq_refl eq_refl) _).
  - intros fs' d' Hd _. unfold head_shell. rewrite Hd. reflexivity.
  - reflexivity.
Defined.



(** *** [write_file]'s transport and commands *)

(** [base64 -d] on the line [echo] prints (the encoding and a newline)
    gives back exactly the content [write_file] encoded, for every
    content. *)
Theorem write_transport_round_trip content :
  base64_d (b64_encode content ++ nl) = Some content.
Proof. apply base64_d_echo. Qed.

Lemma b64_encode_avoids c s :
  b64_val c = None -> ascii_eqb PAD c = false -> str_has c (b64_encode s) = false.
Proof.
  intros Hc Hp.
  induction s as [|a|a b|a b c' rest IH] using b64_string_ind; [reflexivity| | |].
  - pose proof (byte_val_range a).
    cbn [b64_encode str_has].
    repeat rewrite (b64_char_not _ c) by (first [exact Hc | b64_range]).
    rewrite Hp. reflexivity.
  - pose proof (byte_val_range a). pose proof (byte_val_range b).
    cbn [b64_encode str_has].
    repeat rewrite (b64_char_not _ c) by (first [exact Hc | b64_range]).
    rewrite Hp. reflexivity.
  - pose proof (byte_val_range a). pose proof (byte_val_range b).
    pose proof (byte_val_range c').
    cbn [b64_encode str_has].
    repeat rewrite (b64_char_not _ c) by (first [exact Hc | b64_range]).
    exact IH.
Qed.

(** The write command keeps the content inside one shell word: whatever
    the content holds (quotes, spaces, newlines, [$], backticks), the
    command line splits into [echo], the base64 text, [|], [base64], [-d],
    [>] and the path, for a path without a single quote. *)
Theorem write_cmd_words content p :
  str_has "'" p = false ->
  sh_words (write_cmd (b64_encode content) p) false None
  = Some ["echo"; b64_encode content; "|"; "base64"; "-d"; ">"; p].
Proof.
  intros Hp. unfold write_cmd. simpl.
  rewrite (sh_words_quoted (b64_encode content) EmptyString _
             (b64_encode_avoids "'" content eq_refl eq_refl)).
  simpl. rewrite (sh_words_quoted p EmptyString EmptyString Hp). reflexivity.
Qed.

Lemma write_cmd_words_witness :
  sh_words (write_cmd (b64_encode ("it's $HOME" ++ nl ++ "`x`")) "my dir/f.txt") false None
  = Some ["echo"; b64_encode ("it's $HOME" ++ nl ++ "`x`"); "|"; "base64"; "-d"; ">";
          "my dir/f.txt"].
Proof. apply write_cmd_words. reflexivity. Defined.

Lemma upto_last_slash_empty p :
  String.eqb (upto_last_slash p) EmptyString = negb (str_has "/" p).
Proof.
  induction p as [|c s IH]; [reflexivity|].
  cbn [upto_last_slash str_has]. rewrite IH.
  destruct (str_has "/" s); cbn [negb].
  - rewrite orb_true_r. reflexivity.
  - rewrite orb_false_r. unfold SLASH. destruct (ascii_eqb c "/"); reflexivity.
Qed.

Lemma rstrip_slash_nonempty h :
  all_slashes h = false -> String.eqb (rstrip_slash h) EmptyString = false.
Proof.
  induction h as [|c h IH]; [discriminate|].
  cbn [all_slashes rstrip_slash]. intros H.
  destruct (ascii_eqb c SLASH) eqn:Ec; cbn [andb] in *.
  - rewrite (IH H). reflexivity.
  - reflexivity.
Qed.

(** [os.path.dirname] is empty exactly for a path without ['/']. *)
Lemma dirname_empty p :
  String.eqb (dirname p) EmptyString = negb (str_has "/" p).
Proof.
  unfold dirname. cbv zeta. rewrite <- upto_last_slash_empty.
  destruct (String.eqb (upto_last_slash p) EmptyString) eqn:E; cbn [negb andb].
  - exact E.
  - destruct (all_slashes (upto_last_slash p)) eqn:A; cbn [negb].
    + exact E.
    + apply rstrip_slash_nonempty, A.
Qed.

(** [write_file] runs [mkdir -p] on the parent directory exactly when the
    path contains a ['/'], and then the write command, whatever either
    returns; nothing else is run. *)
Theorem write_file_commands exec p content fs tr :
  snd (snd (write_file exec p content (fs, tr)))
  = (tr ++ (if str_has "/" p then [mkdir_cmd (dirname p)] else [])
        ++ [write_cmd (b64_encode content) p])%list.
Proof.
  unfold write_file, bind, ret, run_command. cbv zeta.
  rewrite dirname_empty, negb_involutive.
  destruct (str_has "/" p).
  - destruct (exec (mkdir_cmd (dirname p)) fs) as [r1 fs1].
    destruct (exec (write_cmd (b64_encode content) p) fs1) as [[o c] fs2].
    destruct (negb (c =? 0)%Z); cbn [snd]; rewrite <- app_assoc; reflexivity.
  - destruct (exec (write_cmd (b64_encode content) p) fs) as [[o c] fs2].
    destruct (negb (c =? 0)%Z); reflexivity.
Qed.

(** *** [edit_file]'s commands and [multi_edit_file]'s tolerance *)

(** The texts [edit_file] returns contain "No matches found" only if the
    path or a command's output does. *)
Lemma edit_file_text exec p o n ra st :
  (forall cmd fs, contains "No matches found" (fst (fst (exec cmd fs))) = false) ->
  contains "No matches found" p = false ->
  contains "No matches found" (fst (fst (edit_file exec p o n ra st))) = false.
Proof.
  intros Hx Hp. destruct st as [fs tr].
  unfold edit_file, bind, run_command, ret.
  destruct (exec (probe_cmd p) fs) as [[o1 c1] fs1].
  destruct (contains "No such file or directory" o1 || negb (c1 =? 0)%Z).
  - cbn [fst]. simpl. exact Hp.
  - destruct (exec (backup_cmd p) fs1) as [r2 fs2].
    destruct (exec (sed_cmd p (escape_for_sed o) (escape_for_sed n) ra) fs2)
      as [[o3 c3] fs3] eqn:E3.
    destruct (exec (cleanup_cmd p) fs3) as [r4 fs4].
    destruct (negb (c3 =? 0)%Z); cbn [fst].
    + specialize (Hx (sed_cmd p (escape_for_sed o) (escape_for_sed n) ra) fs2).
      rewrite E3 in Hx. simpl. exact Hx.
    + destruct ra; simpl; exact Hp.
Qed.

(** Since [edit_file] never writes "No matches found" itself, the
    tolerance of [multi_edit_file] for that text never applies when
    neither the path nor any command output contains it: a report without
    the error flag then means that every edit succeeded. *)
Theorem multi_edit_file_all_succeeded exec p edits st :
  (forall cmd fs, contains "No matches found" (fst (fst (exec cmd fs))) = false) ->
  contains "No matches found" p = false ->
  snd (fst (multi_edit_file exec p edits st)) = false ->
  forallb (fun r => negb (snd r)) (fst (run_edits exec p edits st)) = true.
Proof.
  intros Hx Hp. unfold multi_edit_file. generalize 0%nat (@nil string).
  revert st. induction edits as [|[[o n] ra] rest IH]; intros st i results H;
    [reflexivity|].
  cbn [multi_edit_loop run_edits] in *. unfold bind, ret in *.
  pose proof (edit_file_text exec p o n ra st Hx Hp) as Ht.
  destruct (edit_file exec p o n ra st) as [[r e] st'].
  cbn [fst] in Ht. rewrite Ht in H.
  destruct e; cbn [andb negb] in H; [discriminate|].
  specialize (IH st' (S i) _ H).
  destruct (run_edits exec p rest st') as [rs st''].
  exact IH.
Qed.

Lemma multi_edit_file_all_succeeded_witness :
  forallb (fun r => negb (snd r))
    (fst (run_edits exec_quiet "f" [("a", "b", true); ("c", "d", false)] (empty_fs, [])))
  = true.
Proof.
  apply (multi_edit_file_all_succeeded exec_quiet "f" [("a", "b", true); ("c", "d", false)]
           (empty_fs, [])); [intros; reflexivity | reflexivity | reflexivity].
Defined.

(** *** [escape_for_sed] on plain text *)

Lemma str_has_in c s : str_has c s = true <-> In c (list_ascii_of_string s).
Proof.
  induction s as [|x s IH]; cbn [str_has list_ascii_of_string In].
  - split; [discriminate | contradiction].
  - rewrite orb_true_iff, <- IH. unfold ascii_eqb.
    destruct (ascii_dec x c); split; intuition congruence.
Qed.

(** A string holding none of the nine characters [escape_for_sed]
    treats is returned unchanged. *)
Theorem escape_for_sed_plain s :
  forallb (fun c => negb (str_has c s)) (list_ascii_of_string "\/.*[]^$&") = true ->
  escape_for_sed s = s.
Proof.
  rewrite escape_for_sed_chars.
  induction s as [|x s IH]; intros H; [reflexivity|].
  rewrite forallb_forall in H. cbn [escape_chars].
  assert (Hx : str_has x "\/.*[]^$&" = false).
  { destruct (str_has x "\/.*[]^$&") eqn:E; [|reflexivity].
    apply str_has_in in E. specialize (H x E).
    cbn [str_has] in H. rewrite ascii_eqb_refl in H. discriminate. }
  unfold esc1. rewrite Hx. cbn [append]. f_equal. apply IH.
  apply forallb_forall. intros c Hc. specialize (H c Hc).
  cbn [str_has] in H. apply negb_true_iff, orb_false_iff in H as [_ H].
  rewrite H. reflexivity.
Qed.

Lemma escape_for_sed_plain_witness :
  escape_for_sed "def main(): return x + 1" = "def main(): return x + 1".
Proof. apply escape_for_sed_plain. reflexivity. Defined.

(** *** How the shell splits the commands that carry a path *)

Lemma sh_words_plain s rest w :
  str_has "'" s = false -> str_has " " s = false ->
  sh_words (s ++ rest) false (Some w) = sh_words rest false (Some (w ++ s)).
Proof.
  revert w. induction s as [|c s IH]; intros w Hq Hs.
  - simpl. rewrite str_app_nil_r. reflexivity.
  - cbn [str_has] in Hq, Hs.
    apply orb_false_iff in Hq as [Hq1 Hq2]. apply orb_false_iff in Hs as [Hs1 Hs2].
    cbn [append sh_words]. rewrite Hq1, Hs1, (IH _ Hq2 Hs2), <- str_app_assoc.
    reflexivity.
Qed.

Lemma sh_words_word s rest :
  s <> EmptyString -> str_has "'" s = false -> str_has " " s = false ->
  sh_words (s ++ rest) false None = sh_words rest false (Some s).
Proof.
  destruct s as [|c s]; intros Hn Hq Hs; [contradiction|].
  cbn [str_has] in Hq, Hs.
  apply orb_false_iff in Hq as [Hq1 Hq2]. apply orb_false_iff in Hs as [Hs1 Hs2].
  cbn [append sh_words]. rewrite Hq1, Hs1, (sh_words_plain s rest _ Hq2 Hs2).
  reflexivity.
Qed.

Lemma sh_words_last s :
  s <> EmptyString -> str_has "'" s = false -> str_has " " s = false ->
  sh_words s false None = Some [s].
Proof.
  intros Hn Hq Hs. rewrite <- (str_app_nil_r s) at 1.
  rewrite (sh_words_word s EmptyString Hn Hq Hs). reflexivity.
Qed.

Lemma show_nat_fuel_nonempty f n acc :
  acc <> EmptyString -> show_nat_fuel f n acc <> EmptyString.
Proof.
  revert n acc. induction f as [|f IH]; intros n acc H; cbn [show_nat_fuel]; [exact H|].
  destruct (n / 10)%nat; [discriminate | apply IH; discriminate].
Qed.

Lemma show_Z_nonempty z : show_Z z <> EmptyString.
Proof.
  unfold show_Z, show_nat. destruct (z <? 0)%Z; [discriminate|].
  cbn [show_nat_fuel]. destruct (Z.to_nat z / 10)%nat; [discriminate|].
  apply show_nat_fuel_nonempty. discriminate.
Qed.

Lemma show_Z_plain z : str_has "'" (show_Z z) = false /\ str_has " " (show_Z z) = false.
Proof.
  unfold show_Z, show_nat. split; destruct (z <? 0)%Z;
    try (cbn [append str_has]; cbn [orb]);
    try (change (ascii_eqb "-" "'") with false);
    try (change (ascii_eqb "-" " ") with false); cbn [orb];
    apply show_nat_fuel_has; (reflexivity || digits_differ).
Qed.

Lemma upto_last_slash_prefix p : exists t, p = upto_last_slash p ++ t.
Proof.
  induction p as [|c s [t IH]]; [exists EmptyString; reflexivity|].
  cbn [upto_last_slash].
  destruct (String.eqb (upto_last_slash s) EmptyString) eqn:E.
  - destruct (ascii_eqb c SLASH); [exists s; reflexivity | exists (String c s); reflexivity].
  - exists t. cbn [append]. rewrite <- IH. reflexivity.
Qed.

Lemma rstrip_slash_prefix h : exists t, h = rstrip_slash h ++ t.
Proof.
  induction h as [|c s [t IH]]; [exists EmptyString; reflexivity|].
  cbn [rstrip_slash].
  destruct (ascii_eqb c SLASH && String.eqb (rstrip_slash s) EmptyString).
  - exists (String c s). reflexivity.
  - exists t. cbn [append]. rewrite <- IH. reflexivity.
Qed.

Lemma dirname_has c p : str_has c p = false -> str_has c (dirname p) = false.
Proof.
  intros H. destruct (upto_last_slash_prefix p) as [t Ht].
  assert (Hu : str_has c (upto_last_slash p) = false).
  { rewrite Ht, str_has_app in H. apply orb_false_iff in H. tauto. }
  unfold dirname. cbv zeta.
  destruct (negb (String.eqb (upto_last_slash p) EmptyString)
            && negb (all_slashes (upto_last_slash p))); [|exact Hu].
  destruct (rstrip_slash_prefix (upto_last_slash p)) as [t' Ht'].
  rewrite Ht', str_has_app in Hu. apply orb_false_iff in Hu. tauto.
Qed.

(** For a path without a single quote, each command [read_file],
    [write_file]'s [mkdir] and [edit_file]'s copies and removal build
    hands the path (or its [.bak] name, or its directory) to the tool as
    one argument, spaces included. *)
Theorem path_commands_words p o l :
  str_has "'" p = false ->
  sh_words (read_cmd p None None) false None = Some ["nl"; "-ba"; p; "2>&1"] /\
  sh_words (read_cmd p None (Some l)) false None
    = Some ["head"; "-n"; show_Z l; p; "2>&1"; "|"; "nl"; "-ba"] /\
  sh_words (read_cmd p (Some o) (Some l)) false None
    = Some ["tail"; "-n"; "+" ++ show_Z o; p; "2>&1"; "|"; "head"; "-n"; show_Z l;
            "|"; "nl"; "-ba"; "-v"; show_Z o] /\
  sh_words (mkdir_cmd (dirname p)) false None = Some ["mkdir"; "-p"; dirname p] /\
  sh_words (probe_cmd p) false None = Some ["cp"; p; p ++ ".bak"; "2>&1"] /\
  sh_words (backup_cmd p) false None = Some ["cp"; p; p ++ ".bak"] /\
  sh_words (cleanup_cmd p) false None = Some ["rm"; "-f"; p ++ ".bak"].
Proof.
  intros Hp.
  assert (Hb : str_has "'" (p ++ ".bak") = false)
    by (rewrite str_has_app, Hp; reflexivity).
  assert (Hd : str_has "'" (dirname p) = false) by (apply dirname_has, Hp).
  destruct (show_Z_plain o) as [Ho1 Ho2]. destruct (show_Z_plain l) as [Hl1 Hl2].
  repeat split.
  - unfold read_cmd. simpl.
    rewrite (sh_words_quoted p EmptyString _ Hp). reflexivity.
  - unfold read_cmd. simpl.
    rewrite (sh_words_word (show_Z l) _ (show_Z_nonempty l) Hl1 Hl2). simpl.
    rewrite (sh_words_quoted p EmptyString _ Hp). reflexivity.
  - unfold read_cmd. simpl.
    rewrite (sh_words_plain (show_Z o) _ "+" Ho1 Ho2). simpl.
    rewrite (sh_words_quoted p EmptyString _ Hp). simpl.
    rewrite (sh_words_word (show_Z l) _ (show_Z_nonempty l) Hl1 Hl2). simpl.
    rewrite (sh_words_last (show_Z o) (show_Z_nonempty o) Ho1 Ho2). reflexivity.
  - unfold mkdir_cmd. simpl.
    rewrite (sh_words_quoted (dirname p) EmptyString EmptyString Hd). reflexivity.
  - unfold probe_cmd. simpl.
    rewrite (sh_words_quoted p EmptyString _ Hp). simpl.
    replace (p ++ String "." (String "b" (String "a" (String "k" (String "'"
               (String " " (String "2" (String ">" (String "&" (String "1" EmptyString))))))))))
      with ((p ++ ".bak") ++ String "'" " 2>&1") by (rewrite <- str_app_assoc; reflexivity).
    rewrite (sh_words_quoted (p ++ ".bak") EmptyString _ Hb). reflexivity.
  - unfold backup_cmd. simpl.
    rewrite (sh_words_quoted p EmptyString _ Hp). simpl.
    replace (p ++ String "." (String "b" (String "a" (String "k" (String "'" EmptyString)))))
      with ((p ++ ".bak") ++ String "'" EmptyString) by (rewrite <- str_app_assoc; reflexivity).
    rewrite (sh_words_quoted (p ++ ".bak") EmptyString _ Hb). reflexivity.
  - unfold cleanup_cmd. simpl.
    replace (p ++ String "." (String "b" (String "a" (String "k" (String "'" EmptyString)))))
      with ((p ++ ".bak") ++ String "'" EmptyString) by (rewrite <- str_app_assoc; reflexivity).
    rewrite (sh_words_quoted (p ++ ".bak") EmptyString _ Hb). reflexivity.
Qed.

Lemma path_commands_words_witness :
  let p := "my project/notes v2.txt" in
  sh_words (read_cmd p None None) false None = Some ["nl"; "-ba"; p; "2>&1"] /\
  sh_words (read_cmd p None (Some 3%Z)) false None
    = Some ["head"; "-n"; show_Z 3; p; "2>&1"; "|"; "nl"; "-ba"] /\
  sh_words (read_cmd p (Some 5%Z) (Some 3%Z)) false None
    = Some ["tail"; "-n"; "+" ++ show_Z 5; p; "2>&1"; "|"; "head"; "-n"; show_Z 3;
            "|"; "nl"; "-ba"; "-v"; show_Z 5] /\
  sh_words (mkdir_cmd (dirname p)) false None = Some ["mkdir"; "-p"; dirname p] /\
  sh_words (probe_cmd p) false None = Some ["cp"; p; p ++ ".bak"; "2>&1"] /\
  sh_words (backup_cmd p) false None = Some ["cp"; p; p ++ ".bak"] /\
  sh_words (cleanup_cmd p) false None = Some ["rm"; "-f"; p ++ ".bak"].
Proof. intros p. apply (path_commands_words p 5%Z 3%Z). reflexivity. Defined.
